(** * tl_detector: the traffic-light detector node

    A shallow embedding of [ros/src/tl_detector/tl_detector.py] and the
    properties of its decision pipeline: nearest-waypoint lookup, stop-line
    resolution, candidate selection and the debounced publication of the
    stop waypoint. *)

From Stdlib Require Import ZArith List Bool Lia.
Import ListNotations.
Open Scope Z_scope.

(** ** Python values and exceptions *)

(** The values that flow through [state]: TrafficLight ids are ints, and
    [get_light_state] may return the bool [False]. In Python bool is a
    subclass of int, [False == 0] and [True == 1]. *)
Inductive pyval : Type :=
| PyBool (b : bool)
| PyInt (n : Z).

Definition py_int (v : pyval) : Z :=
  match v with
  | PyBool b => Z.b2z b
  | PyInt n => n
  end.

(** [v == w] on such values. *)
Definition py_eq (v w : pyval) : bool := py_int v =? py_int w.

Inductive exn : Type :=
| UnboundLocalError
| ValueError
| AttributeError.

Inductive result (A : Type) : Type :=
| Ok (a : A)
| Raise (e : exn).
Arguments Ok {A} a.
Arguments Raise {A} e.

(** ** What the node imports

    The message constants of styx_msgs, the float coordinates of the
    geometry messages, scipy's [distance.cdist] with numpy's comparison, and
    the image classifier are not part of the node: they are parameters. *)
Class Collaborators : Type := {
  coord : Type;
  (** the literal [0] stored in [pose.position.z] *)
  coord_0 : coord;
  (** entries of the matrix [distance.cdist] returns *)
  dist : Type;
  (** [distance.cdist([u], [v])[0][0]], the Euclidean metric *)
  cdist : coord * coord * coord -> coord * coord * coord -> dist;
  (** the [<] that [argmin] scans with *)
  dist_lt : dist -> dist -> bool;
  (** [TrafficLight.RED], [TrafficLight.YELLOW], [TrafficLight.UNKNOWN] *)
  RED : Z;
  YELLOW : Z;
  UNKNOWN : Z;
  (** [sensor_msgs/Image] *)
  Image : Type;
  (** [light_classifier.get_classification(bridge.imgmsg_to_cv2(img, "rgb8"))] *)
  get_classification : Image -> Z
}.

(** [STATE_COUNT_THRESHOLD = 3] *)
Definition STATE_COUNT_THRESHOLD : Z := 3.

(** ** numpy's argmin over one row: index of the first minimum *)
Section Argmin.
Context {D : Type} (lt : D -> D -> bool).

(** The scan keeps the index [best] of the least entry [m] seen so far and
    replaces it only by a strictly smaller one. *)
Fixpoint argmin_from (best : nat) (m : D) (i : nat) (row : list D) : nat :=
  match row with
  | [] => best
  | d :: row' =>
      if lt d m then argmin_from i d (S i) row'
      else argmin_from best m (S i) row'
  end.

(** [None] stands for the ValueError raised on an empty sequence. *)
Definition argmin (row : list D) : option nat :=
  match row with
  | [] => None
  | d :: row' => Some (argmin_from 0%nat d 1%nat row')
  end.
(** [least lt row b m]: entry [b] of [row] is [m], no entry is below [m],
    and every entry before [b] is strictly above [m]. *)
Definition least (row : list D) (b : nat) (m : D) : Prop :=
  nth_error row b = Some m /\
  (forall j d, nth_error row j = Some d -> lt d m = false) /\
  (forall j d, (j < b)%nat -> nth_error row j = Some d -> lt m d = true).
End Argmin.

(** ** The stop-line loop of process_traffic_lights

    [for i, stop_line_idx in enumerate(self.stop_lines)] with the loop
    variables [light], [min_idx_dist] and [light_wp]; a match breaks. *)
Fixpoint stop_line_loop (car_position : Z) (i : nat) (stop_lines : list Z)
    (light : option nat) (min_idx_dist light_wp : Z) : option nat * Z * Z :=
  match stop_lines with
  | [] => (light, min_idx_dist, light_wp)
  | stop_line_idx :: rest =>
      let idx_dist := stop_line_idx - car_position in
      if (0 <? idx_dist) && (idx_dist <? min_idx_dist)
      then (Some i, idx_dist, stop_line_idx)
      else stop_line_loop car_position (S i) rest None min_idx_dist light_wp
  end.

(** The loop as process_traffic_lights enters it: [light = None],
    [min_idx_dist = 150], [light_wp = -1]. *)
Definition find_stop_line (car_position : Z) (stop_lines : list Z)
  : option nat * Z * Z :=
  stop_line_loop car_position 0%nat stop_lines None 150 (-1).

Section Node.
Context {C : Collaborators}.

(** [geometry_msgs/Point] *)
Record Position : Type := {
  position_x : coord;
  position_y : coord;
  position_z : coord
}.

(** The attributes of a TLDetector. [has_image] is [None] while the
    attribute does not exist: [__init__] does not assign it.
    [upcoming_red_light_pub] is the publisher on /traffic_waypoint, kept
    as the data of the messages published so far, oldest first;
    [light_classifier] is kept as the images it was called with. *)
Record TLDetector : Type := {
  pose : option Position;
  waypoints : option (list Position);
  camera_image : option Image;
  has_image : option bool;
  stop_lines : list Z;
  config : list (coord * coord);
  state : pyval;
  last_state : pyval;
  last_wp : Z;
  state_count : Z;
  upcoming_red_light_pub : list Z;
  light_classifier : list Image
}.

(** The attributes after [__init__], for a given
    [config['stop_line_positions']]. *)
Definition init (stop_line_positions : list (coord * coord)) : TLDetector :=
  {| pose := None; waypoints := None; camera_image := None;
     has_image := None; stop_lines := [];
     config := stop_line_positions;
     state := PyInt UNKNOWN; last_state := PyInt UNKNOWN;
     last_wp := -1; state_count := 0;
     upcoming_red_light_pub := []; light_classifier := [] |}.

Definition set_pose (v : option Position) (s : TLDetector) : TLDetector :=
  {| pose := v; waypoints := waypoints s; camera_image := camera_image s;
     has_image := has_image s; stop_lines := stop_lines s;
     config := config s; state := state s; last_state := last_state s;
     last_wp := last_wp s; state_count := state_count s;
     upcoming_red_light_pub := upcoming_red_light_pub s;
     light_classifier := light_classifier s |}.

Definition set_waypoints (v : option (list Position)) (s : TLDetector)
  : TLDetector :=
  {| pose := pose s; waypoints := v; camera_image := camera_image s;
     has_image := has_image s; stop_lines := stop_lines s;
     config := config s; state := state s; last_state := last_state s;
     last_wp := last_wp s; state_count := state_count s;
     upcoming_red_light_pub := upcoming_red_light_pub s;
     light_classifier := light_classifier s |}.

Definition set_image (msg : Image) (s : TLDetector) : TLDetector :=
  {| pose := pose s; waypoints := waypoints s; camera_image := Some msg;
     has_image := Some true; stop_lines := stop_lines s;
     config := config s; state := state s; last_state := last_state s;
     last_wp := last_wp s; state_count := state_count s;
     upcoming_red_light_pub := upcoming_red_light_pub s;
     light_classifier := light_classifier s |}.

Definition set_stop_lines (v : list Z) (s : TLDetector) : TLDetector :=
  {| pose := pose s; waypoints := waypoints s;
     camera_image := camera_image s; has_image := has_image s;
     stop_lines := v;
     config := config s; state := state s; last_state := last_state s;
     last_wp := last_wp s; state_count := state_count s;
     upcoming_red_light_pub := upcoming_red_light_pub s;
     light_classifier := light_classifier s |}.

Definition set_light_classifier (v : list Image) (s : TLDetector)
  : TLDetector :=
  {| pose := pose s; waypoints := waypoints s;
     camera_image := camera_image s; has_image := has_image s;
     stop_lines := stop_lines s;
     config := config s; state := state s; last_state := last_state s;
     last_wp := last_wp s; state_count := state_count s;
     upcoming_red_light_pub := upcoming_red_light_pub s;
     light_classifier := v |}.

(** The four attributes the debounce writes, and the publisher. *)
Definition set_debounce (st lst : pyval) (lwp cnt : Z) (pub : list Z)
    (s : TLDetector) : TLDetector :=
  {| pose := pose s; waypoints := waypoints s;
     camera_image := camera_image s; has_image := has_image s;
     stop_lines := stop_lines s; config := config s;
     state := st; last_state := lst; last_wp := lwp; state_count := cnt;
     upcoming_red_light_pub := pub;
     light_classifier := light_classifier s |}.

(** ** Methods: state passing with exceptions

    A method maps the attributes to its outcome and the attributes it
    leaves behind; attributes written before a raise stay written. *)
Definition M (A : Type) : Type := TLDetector -> result A * TLDetector.

Definition ret {A} (a : A) : M A := fun s => (Ok a, s).

Definition bind {A B} (m : M A) (k : A -> M B) : M B :=
  fun s =>
    match m s with
    | (Ok a, s') => k a s'
    | (Raise e, s') => (Raise e, s')
    end.

Definition raise {A} (e : exn) : M A := fun s => (Raise e, s).
Definition get : M TLDetector := fun s => (Ok s, s).
Definition modify (f : TLDetector -> TLDetector) : M unit :=
  fun s => (Ok tt, f s).

Notation "x <- m ;; k" := (bind m (fun x => k))
  (at level 61, m at next level, right associativity).
Notation "m ;;; k" := (bind m (fun _ => k))
  (at level 61, right associativity).

(** A list comprehension whose element expression may raise. *)
Fixpoint mapM {A B} (f : A -> M B) (l : list A) : M (list B) :=
  match l with
  | [] => ret []
  | a :: l' => b <- f a ;; bs <- mapM f l' ;; ret (b :: bs)
  end.

Definition pose_cb (msg : Position) : M unit :=
  modify (set_pose (Some msg)).

Definition waypoints_cb (lane : list Position) : M unit :=
  modify (set_waypoints (Some lane)).

Definition get_coordinates_vector (position : Position)
  : coord * coord * coord :=
  (position_x position, position_y position, position_z position).

(** [distance.cdist([node], waypoints).argmin()]: the row of distances
    from [node], then the index of its first minimum. An empty array makes
    the call raise ValueError. *)
Definition nearest (node : coord * coord * coord) (lane : list Position)
  : option nat :=
  argmin dist_lt (map (fun w => cdist node (get_coordinates_vector w)) lane).

(** Without waypoints the else branch only logs, and the return reads
    the local [nearest_index] that was never assigned. *)
Definition get_closest_waypoint (p : Position) : M Z :=
  self <- get ;;
  match waypoints self with
  | Some lane =>
      match nearest (get_coordinates_vector p) lane with
      | Some nearest_index => ret (Z.of_nat nearest_index)
      | None => raise ValueError
      end
  | None => raise UnboundLocalError
  end.

Definition get_closest_stoplight_waypoint (stop_line_position : coord * coord)
  : M Z :=
  get_closest_waypoint
    {| position_x := fst stop_line_position;
       position_y := snd stop_line_position;
       position_z := coord_0 |}.

(** Reading [self.has_image] before any frame raises AttributeError;
    [self.prev_light_loc], written on the no-image branch and read
    nowhere, is left out. The argument [light] is not used. *)
Definition get_light_state (light : nat) : M pyval :=
  self <- get ;;
  match has_image self with
  | None => raise AttributeError
  | Some false => ret (PyBool false)
  | Some true =>
      match camera_image self with
      | None => raise AttributeError
      | Some img =>
          modify (set_light_classifier (light_classifier self ++ [img])) ;;;
          ret (PyInt (get_classification img))
      end
  end.

Definition process_traffic_lights : M (Z * pyval) :=
  self <- get ;;
  closest_waypoints <- mapM get_closest_stoplight_waypoint (config self) ;;
  modify (fun s => set_stop_lines (stop_lines s ++ closest_waypoints) s) ;;;
  self <- get ;;
  found <-
    match pose self with
    | Some p =>
        car_position <- get_closest_waypoint p ;;
        ret (find_stop_line car_position (stop_lines self))
    | None => ret (None, 150, -1)
    end ;;
  let '(light, _, light_wp) := found in
  match light with
  | Some l => st <- get_light_state l ;; ret (light_wp, st)
  | None => ret (-1, PyInt UNKNOWN)
  end.

(** Lines 92-102 of image_cb: the debounce of the raw state and the
    publication. It raises nothing. *)
Definition debounce (light_wp : Z) (st : pyval) (self : TLDetector)
  : TLDetector :=
  if negb (py_eq (state self) st) then
    set_debounce st (last_state self) (last_wp self) (0 + 1)
      (upcoming_red_light_pub self) self
  else if STATE_COUNT_THRESHOLD <=? state_count self then
    let light_wp :=
      if py_eq st (PyInt RED) || py_eq st (PyInt YELLOW)
      then light_wp else -1 in
    set_debounce (state self) (state self) light_wp (state_count self + 1)
      (upcoming_red_light_pub self ++ [light_wp]) self
  else
    set_debounce (state self) (last_state self) (last_wp self)
      (state_count self + 1)
      (upcoming_red_light_pub self ++ [last_wp self]) self.

Definition image_cb (msg : Image) : M unit :=
  modify (set_image msg) ;;;
  r <- process_traffic_lights ;;
  modify (debounce (fst r) (snd r)).

(** A run of frames through the debounce, each frame given by what
    process_traffic_lights returned for it. *)
Definition debounce_run (frames : list (Z * pyval)) (self : TLDetector)
  : TLDetector :=
  fold_left (fun s f => debounce (fst f) (snd f) s) frames self.

End Node.


(** ** Derived notions used by the statements *)

Section Derived.
Context {C : Collaborators}.

(** What the list comprehension of process_traffic_lights evaluates to:
    the waypoint index of every configured stop line, or the exception of
    the first lookup that raises. *)
Definition closest_waypoints (self : TLDetector) : result (list Z) :=
  fst (mapM get_closest_stoplight_waypoint (config self) self).

(** The value committed for a candidate waypoint under raw state [st]. *)
Definition committed (st : pyval) (light_wp : Z) : Z :=
  if py_eq st (PyInt RED) || py_eq st (PyInt YELLOW) then light_wp else -1.

(** A run of frames that all carry the raw state [st]. *)
Definition same_state_run (st : pyval) (wps : list Z) : list (Z * pyval) :=
  map (fun wp => (wp, st)) wps.

End Derived.

(** [self.stop_lines] after [k] decision cycles that each extended it by
    the same resolved list [r]. *)
Fixpoint copies (k : nat) (r : list Z) : list Z :=
  match k with
  | O => []
  | S k' => copies k' r ++ r
  end.

(** The candidate selection in the words of the specification: scan the
    stop lines in configured order and take the first whose waypoint index
    lies strictly ahead of the car within the horizon of 150 indices. *)
Definition ahead_within_horizon (carIndex waypointIndex : Z) : bool :=
  (0 <? waypointIndex - carIndex) && (waypointIndex - carIndex <? 150).

Definition selectCandidate (carIndex : Z) (stopLineWaypoints : list Z)
  : option (nat * Z) :=
  find (fun c => ahead_within_horizon carIndex (snd c))
       (combine (seq 0 (length stopLineWaypoints)) stopLineWaypoints).

(** ** A concrete world: integer coordinates

    Squared Euclidean distance orders points as Euclidean distance does.
    The image of a frame is the light id the classifier reports for it. *)
Definition sq_euclid (u v : Z * Z * Z) : Z :=
  let '(ux, uy, uz) := u in
  let '(vx, vy, vz) := v in
  (ux - vx) * (ux - vx) + (uy - vy) * (uy - vy) + (uz - vz) * (uz - vz).

Definition grid : Collaborators :=
  {| coord := Z; coord_0 := 0;
     dist := Z; cdist := sq_euclid; dist_lt := Z.ltb;
     RED := 0; YELLOW := 1; UNKNOWN := 4;
     Image := Z; get_classification := fun img => img |}.

(** A straight path of [n] points along the x axis: point [i] is (i,0,0). *)
Definition straight_lane (n : nat) : list (@Position grid) :=
  map (fun i => @Build_Position grid (Z.of_nat i) 0 0) (seq 0 n).

Definition at_x (i : Z) : @Position grid := @Build_Position grid i 0 0.

(** A detector on the grid after [__init__] and one path message. *)
Definition with_lane (n : nat) (stop_line_positions : list (Z * Z))
  : @TLDetector grid :=
  set_waypoints (Some (straight_lane n)) (@init grid stop_line_positions).


(** A path that runs twice along the x axis, and a query point beside it. *)
Definition twice_along : @TLDetector grid :=
  set_waypoints (Some (straight_lane 10 ++ straight_lane 10)) (@init grid []).

Definition off_axis : @Position grid := @Build_Position grid 3 1 0.


Definition empty_path : @TLDetector grid :=
  set_waypoints (Some []) (@init grid [(0, 0)]).

(** The candidate held by the loop variables when the loop is left. *)
Definition candidate_of (found : option nat * Z * Z) : option (nat * Z) :=
  match found with
  | (Some light, _, light_wp) => Some (light, light_wp)
  | (None, _, _) => None
  end.

(** A car at waypoint 60 of a path of 300 points, with stop lines at the
    given x positions. *)
Definition car_at_60 (stop_line_xs : list Z) : @TLDetector grid :=
  set_pose (Some (at_x 60)) (with_lane 300 (map (fun x => (x, 0)) stop_line_xs)).

(** The same car once a frame with image [img] has been stored. *)
Definition car_at_60_seeing (img : Z) (stop_line_xs : list Z)
  : @TLDetector grid :=
  @set_image grid img (car_at_60 stop_line_xs).

(** That car after two frames, both classified RED. *)
Definition after_two_cycles : @TLDetector grid :=
  snd (@image_cb grid 0 (snd (@image_cb grid 0 (car_at_60 [160; 110])))).

(** The detector after the first [k] frames of a run of frames that all
    carry the raw state [st], with candidate waypoints [wps]. *)
Definition debounce_after {C : Collaborators} (self : TLDetector)
    (st : pyval) (wps : list Z) (k : nat) : TLDetector :=
  debounce_run (same_state_run st (firstn k wps)) self.

(** Three RED frames with candidate 200, from the state after [__init__]. *)
Definition three_red_frames : @TLDetector grid :=
  @debounce_after grid (@init grid []) (PyInt 0) [200; 200; 200] 3.

(** ** The node under rospy.spin

    The messages the subscribers of [__init__] deliver: /current_pose to
    pose_cb, /base_waypoints to waypoints_cb and /image_color to image_cb
    (traffic_cb only stores [self.lights], which nothing reads). rospy
    logs an exception that leaves a callback and goes on with the next
    message, the attributes being as the callback left them. *)
Section Spin.
Context {C : Collaborators}.

Inductive message : Type :=
| PoseStamped (p : Position)
| Lane (lane : list Position)
| CameraImage (img : Image).

Definition deliver (m : message) : M unit :=
  match m with
  | PoseStamped p => pose_cb p
  | Lane lane => waypoints_cb lane
  | CameraImage img => image_cb img
  end.

Definition spin (ms : list message) (self : TLDetector) : TLDetector :=
  fold_left (fun s m => snd (deliver m s)) ms self.

Definition is_frame (m : message) : bool :=
  match m with
  | CameraImage _ => true
  | _ => false
  end.

Definition is_lane (m : message) : bool :=
  match m with
  | Lane _ => true
  | _ => false
  end.

(** The stored stop lines are indices, and the stable waypoint and every
    published message are -1 or one of the stored stop lines. *)
Definition decisions_from_stop_lines (s : TLDetector) : Prop :=
  Forall (fun i => 0 <= i) (stop_lines s) /\
  (last_wp s = -1 \/ In (last_wp s) (stop_lines s)) /\
  Forall (fun m => m = -1 \/ In m (stop_lines s)) (upcoming_red_light_pub s).

End Spin.

(** A path whose point [i] is (i + 50, 0, 0), and that path given to a car
    that has processed one frame on the straight path, with one stop line
    at x = 100 (waypoint 100 of the straight path, 50 of the shifted one)
    and the pose at x = 60. *)
Definition shifted_lane (n : nat) : list (@Position grid) :=
  map (fun i => @Build_Position grid (Z.of_nat i + 50) 0 0) (seq 0 n).

Definition rerouted : @TLDetector grid :=
  @spin grid [@CameraImage grid 0; @Lane grid (shifted_lane 300)]
    (car_at_60 [100]).

(** A detector with a path of 10 points and two stop lines, and three
    frames with a pose message between them. *)
Definition two_stop_lines : @TLDetector grid := with_lane 10 [(5, 0); (8, 0)].

Definition three_frames_one_pose : list (@message grid) :=
  [@CameraImage grid 0; @PoseStamped grid (at_x 3);
   @CameraImage grid 2; @CameraImage grid 0].

(** * Properties *)

(** ** argmin returns the first index of a least entry *)
Section ArgminFacts.
Context {D : Type} (lt : D -> D -> bool).
Hypothesis lt_irrefl : forall a, lt a a = false.
Hypothesis lt_trans :
  forall a b c, lt a b = true -> lt b c = true -> lt a c = true.
Hypothesis lt_split :
  forall a b c, lt a c = true -> lt a b = true \/ lt b c = true.

Lemma least_snoc_keep (seen : list D) (b : nat) (m d : D) :
  least lt seen b m -> lt d m = false -> least lt (seen ++ [d]) b m.
Proof.
  intros (Hb & Hmin & Hfirst) Hd.
  assert (Hlen : (b < length seen)%nat)
    by (apply nth_error_Some; congruence).
  repeat split.
  - rewrite nth_error_app1; assumption.
  - intros j e Hj.
    destruct (Nat.lt_ge_cases j (length seen)) as [Hlt | Hge].
    + rewrite nth_error_app1 in Hj by assumption. eauto.
    + rewrite nth_error_app2 in Hj by assumption.
      destruct (j - length seen)%nat as [| n]; simpl in Hj.
      * now inversion Hj; subst.
      * now destruct n.
  - intros j e Hjb Hj.
    rewrite nth_error_app1 in Hj by lia. eauto.
Qed.

Lemma least_snoc_new (seen : list D) (b : nat) (m d : D) :
  least lt seen b m -> lt d m = true -> least lt (seen ++ [d]) (length seen) d.
Proof.
  intros (Hb & Hmin & Hfirst) Hd.
  repeat split.
  - rewrite nth_error_app2 by lia. now rewrite Nat.sub_diag.
  - intros j e Hj.
    destruct (Nat.lt_ge_cases j (length seen)) as [Hlt | Hge].
    + rewrite nth_error_app1 in Hj by assumption.
      destruct (lt e d) eqn:Hed; [| reflexivity].
      pose proof (lt_trans e d m Hed Hd) as Hem.
      rewrite (Hmin j e Hj) in Hem. discriminate.
    + rewrite nth_error_app2 in Hj by assumption.
      destruct (j - length seen)%nat as [| n]; simpl in Hj.
      * inversion Hj; subst. apply lt_irrefl.
      * now destruct n.
  - intros j e Hjb Hj.
    rewrite nth_error_app1 in Hj by assumption.
    destruct (lt_split d e m Hd) as [H | H]; [assumption |].
    rewrite (Hmin j e Hj) in H. discriminate.
Qed.

Lemma argmin_from_least (row seen : list D) (b : nat) (m : D) :
  least lt seen b m ->
  exists m', least lt (seen ++ row) (argmin_from lt b m (length seen) row) m'.
Proof.
  revert seen b m.
  induction row as [| d row IH]; intros seen b m Hinv; simpl.
  - exists m. now rewrite app_nil_r.
  - replace (seen ++ d :: row) with ((seen ++ [d]) ++ row)
      by (now rewrite <- app_assoc).
    replace (S (length seen)) with (length (seen ++ [d]))
      by (rewrite length_app; simpl; lia).
    destruct (lt d m) eqn:Hd.
    + apply IH. now apply (least_snoc_new seen b m d).
    + apply IH. now apply least_snoc_keep.
Qed.

Lemma argmin_least (row : list D) :
  row <> [] -> exists b m, argmin lt row = Some b /\ least lt row b m.
Proof.
  destruct row as [| d row]; [congruence | intros _].
  destruct (argmin_from_least row [d] 0%nat d) as (m' & Hm').
  - repeat split.
    + intros j e Hj. destruct j as [| j]; simpl in Hj.
      * inversion Hj; subst. apply lt_irrefl.
      * now destruct j.
    + intros j e Hj. lia.
  - exists (argmin_from lt 0%nat d 1%nat row), m'. split; [reflexivity | exact Hm'].
Qed.

End ArgminFacts.

(** ** The nearest-waypoint lookup *)
Section Lookup.
Context {C : Collaborators}.

Lemma get_closest_waypoint_reads (p : Position) (self : TLDetector) :
  snd (get_closest_waypoint p self) = self.
Proof.
  unfold get_closest_waypoint, bind, get, ret, raise; simpl.
  destruct (waypoints self) as [lane |]; [| reflexivity].
  now destruct (nearest (get_coordinates_vector p) lane).
Qed.

Lemma get_closest_waypoint_no_path (p : Position) (self : TLDetector) :
  waypoints self = None ->
  get_closest_waypoint p self = (Raise UnboundLocalError, self).
Proof.
  intros Hw. unfold get_closest_waypoint, bind, get, raise; simpl.
  now rewrite Hw.
Qed.

Lemma get_closest_waypoint_some (p : Position) (self : TLDetector)
    (w : Position) (lane : list Position) :
  waypoints self = Some (w :: lane) ->
  exists i, get_closest_waypoint p self = (Ok (Z.of_nat i), self).
Proof.
  intros Hw. unfold get_closest_waypoint, bind, get, ret; simpl.
  rewrite Hw. unfold nearest; simpl. eauto.
Qed.

(** C6. With a non-empty path the lookup returns an index [i] of the path
    such that no path point is nearer to the query point than point [i],
    and every point at a lower index is strictly farther: among the points
    at minimal distance, [i] is the lowest index. The distance [d v] is
    the one cdist computes between the coordinates (x, y, z) of the query
    point and those of the path point [v]; numpy's comparison of such
    distances is taken to be a strict weak order. *)
Theorem get_closest_waypoint_nearest
    (lt_irrefl : forall a, dist_lt a a = false)
    (lt_trans : forall a b c,
        dist_lt a b = true -> dist_lt b c = true -> dist_lt a c = true)
    (lt_split : forall a b c,
        dist_lt a c = true -> dist_lt a b = true \/ dist_lt b c = true)
    (self : TLDetector) (p : Position) (lane : list Position) :
  waypoints self = Some lane ->
  lane <> [] ->
  let d := fun v : Position =>
             cdist (position_x p, position_y p, position_z p)
                   (position_x v, position_y v, position_z v) in
  exists (i : nat) (w : Position),
    get_closest_waypoint p self = (Ok (Z.of_nat i), self) /\
    nth_error lane i = Some w /\
    (forall j v, nth_error lane j = Some v -> dist_lt (d v) (d w) = false) /\
    (forall j v, (j < i)%nat -> nth_error lane j = Some v ->
                 dist_lt (d w) (d v) = true).
Proof.
  intros Hw Hne d.
  destruct (argmin_least dist_lt lt_irrefl lt_trans lt_split (map d lane))
    as (b & m & Harg & Hb & Hmin & Hfirst).
  { destruct lane; [congruence | discriminate]. }
  rewrite nth_error_map in Hb.
  destruct (nth_error lane b) as [w |] eqn:Hnth; [| discriminate].
  simpl in Hb. inversion Hb; subst m.
  exists b, w. repeat split.
  - unfold get_closest_waypoint, bind, get, ret; simpl.
    rewrite Hw.
    change (nearest (get_coordinates_vector p) lane)
      with (argmin dist_lt (map d lane)).
    now rewrite Harg.
  - assumption.
  - intros j v Hj. apply (Hmin j).
    rewrite nth_error_map, Hj. reflexivity.
  - intros j v Hlt Hj. apply (Hfirst j); [assumption |].
    rewrite nth_error_map, Hj. reflexivity.
Qed.

End Lookup.

(** [Z.ltb] is a strict weak order. *)
Lemma Zltb_trans (a b c : Z) :
  (a <? b) = true -> (b <? c) = true -> (a <? c) = true.
Proof. rewrite !Z.ltb_lt. lia. Qed.

Lemma Zltb_split (a b c : Z) :
  (a <? c) = true -> (a <? b) = true \/ (b <? c) = true.
Proof. rewrite !Z.ltb_lt. lia. Qed.

(** The lookup on the grid, from (3,1,0) over a path that runs twice along
    the x axis. *)
Lemma get_closest_waypoint_nearest_witness :
  let d := fun v : @Position grid =>
             sq_euclid (3, 1, 0) (position_x v, position_y v, position_z v) in
  exists (i : nat) (w : @Position grid),
    @get_closest_waypoint grid off_axis twice_along =
      (Ok (Z.of_nat i), twice_along) /\
    nth_error (straight_lane 10 ++ straight_lane 10) i = Some w /\
    (forall j v, nth_error (straight_lane 10 ++ straight_lane 10) j = Some v ->
                 (d v <? d w) = false) /\
    (forall j v, (j < i)%nat ->
                 nth_error (straight_lane 10 ++ straight_lane 10) j = Some v ->
                 (d w <? d v) = true).
Proof.
  apply (@get_closest_waypoint_nearest grid
           Z.ltb_irrefl Zltb_trans Zltb_split twice_along off_axis
           (straight_lane 10 ++ straight_lane 10)).
  - reflexivity.
  - discriminate.
Defined.

(** Points 3 and 13 of that path are equally near; the lower index is
    returned. *)
Example get_closest_waypoint_tie :
  @get_closest_waypoint grid off_axis twice_along = (Ok 3, twice_along).
Proof. reflexivity. Qed.

(** ** The stop-line loop *)
Section Loop.
Variable car : Z.

(** Stop-line waypoints the test [0 < idx_dist < min_idx_dist] rejects
    while [min_idx_dist] is 150. *)
Local Abbreviation rejected := (fun w : Z => ~ 0 < w - car < 150).

Lemma stop_line_loop_none (l : list Z) (i : nat) (wp0 : Z) :
  Forall rejected l ->
  stop_line_loop car i l None 150 wp0 = (None, 150, wp0).
Proof.
  intros H. revert i.
  induction H as [| w l Hw _ IH]; intros i; simpl; [reflexivity |].
  destruct ((0 <? w - car) && (w - car <? 150)) eqn:E; [| apply IH].
  apply andb_prop in E as [E1 E2].
  apply Z.ltb_lt in E1, E2. exfalso. apply Hw. lia.
Qed.

Lemma stop_line_loop_first (pre post : list Z) (w : Z) (i : nat) (wp0 : Z) :
  Forall rejected pre ->
  0 < w - car < 150 ->
  stop_line_loop car i (pre ++ w :: post) None 150 wp0
  = (Some (i + length pre)%nat, w - car, w).
Proof.
  intros H Hw. revert i.
  induction H as [| v pre Hv _ IH]; intros i; simpl.
  - replace ((0 <? w - car) && (w - car <? 150)) with true.
    + now rewrite Nat.add_0_r.
    + symmetry. apply andb_true_intro. split; apply Z.ltb_lt; lia.
  - destruct ((0 <? v - car) && (v - car <? 150)) eqn:E.
    + apply andb_prop in E as [E1 E2].
      apply Z.ltb_lt in E1, E2. exfalso. apply Hv. lia.
    + rewrite IH. f_equal. f_equal. f_equal. lia.
Qed.

Lemma first_accepted (l : list Z) :
  Forall rejected l \/
  exists pre w post,
    l = pre ++ w :: post /\ Forall rejected pre /\ 0 < w - car < 150.
Proof.
  induction l as [| v l IH]; [left; constructor |].
  destruct (Z_lt_dec 0 (v - car)) as [H1 | H1];
    [destruct (Z_lt_dec (v - car) 150) as [H2 | H2] |].
  - right. exists [], v, l. repeat split; [constructor | lia | lia].
  - destruct IH as [IH | (pre & w & post & -> & Hpre & Hw)].
    + left. constructor; [lia | assumption].
    + right. exists (v :: pre), w, post.
      repeat split; [constructor; [lia | assumption] | lia | lia].
  - destruct IH as [IH | (pre & w & post & -> & Hpre & Hw)].
    + left. constructor; [lia | assumption].
    + right. exists (v :: pre), w, post.
      repeat split; [constructor; [lia | assumption] | lia | lia].
Qed.

Lemma find_stop_line_in_window (l : list Z) (i : nat) (d wp : Z) :
  find_stop_line car l = (Some i, d, wp) ->
  nth_error l i = Some wp /\ d = wp - car /\ car < wp < car + 150.
Proof.
  unfold find_stop_line. intros H.
  destruct (first_accepted l) as [Hall | (pre & w & post & -> & Hpre & Hw)].
  - rewrite stop_line_loop_none in H by assumption. discriminate.
  - rewrite stop_line_loop_first in H by assumption.
    inversion H; subst. simpl. repeat split; try lia.
    rewrite nth_error_app2 by lia. now rewrite Nat.sub_diag.
Qed.

End Loop.

(** ** process_traffic_lights *)
Section Pipeline.
Context {C : Collaborators}.

Lemma pair_with_snd {A B : Type} (p : A * B) (b : B) :
  snd p = b -> p = (fst p, b).
Proof. intros <-. apply surjective_pairing. Qed.

Lemma get_closest_stoplight_waypoint_eq (c : coord * coord)
    (self : TLDetector) :
  get_closest_stoplight_waypoint c self
  = (fst (get_closest_stoplight_waypoint c self), self).
Proof.
  apply pair_with_snd. unfold get_closest_stoplight_waypoint.
  apply get_closest_waypoint_reads.
Qed.

Lemma mapM_stoplight_reads (cfg : list (coord * coord)) (self : TLDetector) :
  snd (mapM get_closest_stoplight_waypoint cfg self) = self.
Proof.
  induction cfg as [| c cfg IH]; simpl; [reflexivity |].
  unfold bind. rewrite get_closest_stoplight_waypoint_eq.
  destruct (fst (get_closest_stoplight_waypoint c self)); [| reflexivity].
  destruct (mapM get_closest_stoplight_waypoint cfg self) as [[r | e] s];
    simpl in IH; subst s; reflexivity.
Qed.

Lemma mapM_stoplight_eq (self : TLDetector) :
  mapM get_closest_stoplight_waypoint (config self) self
  = (closest_waypoints self, self).
Proof.
  unfold closest_waypoints.
  apply pair_with_snd, mapM_stoplight_reads.
Qed.

(** The comprehension reads only the path and the configuration. *)
Lemma mapM_stoplight_ext (cfg : list (coord * coord)) (s1 s2 : TLDetector) :
  waypoints s1 = waypoints s2 ->
  fst (mapM get_closest_stoplight_waypoint cfg s1)
  = fst (mapM get_closest_stoplight_waypoint cfg s2).
Proof.
  intros Hw.
  induction cfg as [| c cfg IH]; simpl; [reflexivity |].
  unfold bind.
  pose proof (get_closest_stoplight_waypoint_eq c) as Hc.
  assert (Hm : forall s, mapM get_closest_stoplight_waypoint cfg s
               = (fst (mapM get_closest_stoplight_waypoint cfg s), s)).
  { intros s. apply pair_with_snd, mapM_stoplight_reads. }
  rewrite (Hc s1), (Hc s2).
  replace (fst (get_closest_stoplight_waypoint c s2))
    with (fst (get_closest_stoplight_waypoint c s1)).
  - destruct (fst (get_closest_stoplight_waypoint c s1)); [| reflexivity].
    rewrite (Hm s1), (Hm s2), IH.
    now destruct (fst (mapM get_closest_stoplight_waypoint cfg s2)).
  - unfold get_closest_stoplight_waypoint, get_closest_waypoint, bind, get.
    simpl. rewrite Hw. destruct (waypoints s2); [| reflexivity].
    now destruct nearest.
Qed.

Lemma closest_waypoints_ext (s1 s2 : TLDetector) :
  waypoints s1 = waypoints s2 -> config s1 = config s2 ->
  closest_waypoints s1 = closest_waypoints s2.
Proof.
  intros Hw Hc. unfold closest_waypoints. rewrite Hc.
  now apply mapM_stoplight_ext.
Qed.

(** With a non-empty path every configured stop line resolves. *)
Lemma closest_waypoints_some (self : TLDetector) (w : Position)
    (lane : list Position) :
  waypoints self = Some (w :: lane) ->
  exists r, closest_waypoints self = Ok r /\ length r = length (config self).
Proof.
  intros Hw. unfold closest_waypoints.
  induction (config self) as [| c cfg (r & Hr & Hlen)]; simpl.
  - now exists [].
  - unfold bind.
    destruct (get_closest_waypoint_some
                {| position_x := fst c; position_y := snd c;
                   position_z := coord_0 |} self w lane Hw) as (i & Hi).
    unfold get_closest_stoplight_waypoint at 1. rewrite Hi.
    pose proof (mapM_stoplight_reads cfg self) as Hs.
    destruct (mapM get_closest_stoplight_waypoint cfg self) as [[r' | e] s];
      simpl in *; [| discriminate].
    inversion Hr; subst. exists (Z.of_nat i :: r). simpl. auto.
Qed.

(** Without a path the first lookup of the comprehension raises. *)
Lemma closest_waypoints_no_path (self : TLDetector) :
  waypoints self = None -> config self <> [] ->
  closest_waypoints self = Raise UnboundLocalError.
Proof.
  intros Hw Hc. unfold closest_waypoints.
  destruct (config self) as [| c cfg]; [congruence |]. simpl.
  unfold bind, get_closest_stoplight_waypoint at 1.
  now rewrite get_closest_waypoint_no_path.
Qed.

Lemma process_traffic_lights_raises (self : TLDetector) (e : exn) :
  closest_waypoints self = Raise e ->
  process_traffic_lights self = (Raise e, self).
Proof.
  intros H. unfold process_traffic_lights, bind, get. simpl.
  now rewrite mapM_stoplight_eq, H.
Qed.

(** What process_traffic_lights does once the stop lines have resolved
    to [r]: [self.stop_lines] is extended by [r], then the car is located
    and the extended list scanned. *)
Lemma process_traffic_lights_resolved (self : TLDetector) (r : list Z) :
  closest_waypoints self = Ok r ->
  process_traffic_lights self =
    let self' := set_stop_lines (stop_lines self ++ r) self in
    match pose self with
    | None => (Ok (-1, PyInt UNKNOWN), self')
    | Some p =>
        match fst (get_closest_waypoint p self') with
        | Raise e => (Raise e, self')
        | Ok car_position =>
            match find_stop_line car_position (stop_lines self ++ r) with
            | (Some l, _, light_wp) =>
                match get_light_state l self' with
                | (Ok st, s) => (Ok (light_wp, st), s)
                | (Raise e, s) => (Raise e, s)
                end
            | (None, _, _) => (Ok (-1, PyInt UNKNOWN), self')
            end
        end
    end.
Proof.
  intros H. unfold process_traffic_lights, bind, get, modify, ret. simpl.
  rewrite mapM_stoplight_eq, H. simpl.
  destruct (pose self) as [p |]; [| reflexivity].
  pose proof (get_closest_waypoint_reads p
                (set_stop_lines (stop_lines self ++ r) self)) as Hs.
  destruct (get_closest_waypoint p _) as [[car | e] s]; simpl in *; subst s;
    [| reflexivity].
  destruct (find_stop_line car (stop_lines self ++ r)) as [[[l |] d] wp];
    reflexivity.
Qed.

Lemma get_closest_waypoint_ext (p : Position) (s1 s2 : TLDetector) :
  waypoints s1 = waypoints s2 ->
  fst (get_closest_waypoint p s1) = fst (get_closest_waypoint p s2).
Proof.
  intros Hw. unfold get_closest_waypoint, bind, get. simpl. rewrite Hw.
  destruct (waypoints s2); [| reflexivity]. now destruct nearest.
Qed.

(** get_light_state touches nothing but the classifier. *)
Lemma get_light_state_frame (l : nat) (self : TLDetector) :
  exists imgs,
    snd (get_light_state l self) = set_light_classifier imgs self /\
    (has_image self <> Some true -> imgs = light_classifier self).
Proof.
  unfold get_light_state, bind, get, modify, ret, raise. simpl.
  assert (Hself : self = set_light_classifier (light_classifier self) self)
    by now destruct self.
  destruct (has_image self) as [[|] |].
  - destruct (camera_image self) as [img |].
    + exists (light_classifier self ++ [img]). split; [reflexivity | congruence].
    + exists (light_classifier self). split; [exact Hself | reflexivity].
  - exists (light_classifier self). split; [exact Hself | reflexivity].
  - exists (light_classifier self). split; [exact Hself | reflexivity].
Qed.

(** Once the stop lines have resolved to [r], process_traffic_lights leaves
    the attributes as they were, except that [self.stop_lines] has grown by
    [r] and the classifier may have been called. *)
Lemma process_traffic_lights_frame (self : TLDetector) (r : list Z) :
  closest_waypoints self = Ok r ->
  exists imgs,
    snd (process_traffic_lights self)
    = set_light_classifier imgs (set_stop_lines (stop_lines self ++ r) self).
Proof.
  intros H. rewrite (process_traffic_lights_resolved self r H). cbv zeta.
  set (self' := set_stop_lines (stop_lines self ++ r) self).
  assert (Hself : exists imgs, self' = set_light_classifier imgs self')
    by (exists (light_classifier self'); now destruct self).
  destruct (pose self) as [p |]; [| exact Hself].
  destruct (fst (get_closest_waypoint p self')) as [car | e]; [| exact Hself].
  destruct (find_stop_line car (stop_lines self ++ r)) as [[[l |] d] wp];
    [| exact Hself].
  destruct (get_light_state_frame l self') as (imgs & Hs & _).
  exists imgs. rewrite <- Hs.
  now destruct (get_light_state l self') as [[st | e] s].
Qed.

(** C2. A frame that arrives before any path, with at least one stop line
    configured: the lookup of the first stop line raises UnboundLocalError,
    which leaves image_cb; the frame is stored and nothing is published. *)
Theorem image_cb_without_path (msg : Image) (self : TLDetector) :
  waypoints self = None ->
  config self <> [] ->
  image_cb msg self = (Raise UnboundLocalError, set_image msg self) /\
  upcoming_red_light_pub (snd (image_cb msg self))
  = upcoming_red_light_pub self.
Proof.
  intros Hw Hc.
  assert (H : image_cb msg self = (Raise UnboundLocalError, set_image msg self)).
  { unfold image_cb, bind, modify at 1. simpl.
    rewrite process_traffic_lights_raises with (e := UnboundLocalError);
      [reflexivity |].
    now apply closest_waypoints_no_path. }
  split; [exact H | now rewrite H].
Qed.


(** C9. Without a pose and with a non-empty path, process_traffic_lights
    returns -1 with UNKNOWN; the stop lines are resolved and appended, and
    the classifier is not called. *)
Theorem process_traffic_lights_without_pose (self : TLDetector)
    (w : Position) (lane : list Position) :
  pose self = None ->
  waypoints self = Some (w :: lane) ->
  exists r,
    closest_waypoints self = Ok r /\
    process_traffic_lights self
    = (Ok (-1, PyInt UNKNOWN), set_stop_lines (stop_lines self ++ r) self) /\
    light_classifier (snd (process_traffic_lights self))
    = light_classifier self.
Proof.
  intros Hp Hw.
  destruct (closest_waypoints_some self w lane Hw) as (r & Hr & _).
  exists r. rewrite (process_traffic_lights_resolved self r Hr).
  cbv zeta. rewrite Hp. auto.
Qed.

(** C4. Each decision cycle on an unchanged path resolves the stop lines
    to the same list [r] and appends it to [self.stop_lines]: after two
    cycles the stored list holds every resolved index twice. *)
Theorem stop_lines_accumulate (self : TLDetector) (r : list Z) :
  closest_waypoints self = Ok r ->
  closest_waypoints (snd (process_traffic_lights self)) = Ok r /\
  stop_lines (snd (process_traffic_lights self)) = stop_lines self ++ r /\
  stop_lines (snd (process_traffic_lights (snd (process_traffic_lights self))))
  = (stop_lines self ++ r) ++ r.
Proof.
  intros H.
  destruct (process_traffic_lights_frame self r H) as (imgs & Hs).
  assert (H1 : closest_waypoints (snd (process_traffic_lights self)) = Ok r).
  { rewrite <- H. apply closest_waypoints_ext; now rewrite Hs. }
  destruct (process_traffic_lights_frame _ r H1) as (imgs' & Hs').
  repeat split; [exact H1 | now rewrite Hs |].
  rewrite Hs'. simpl. now rewrite Hs.
Qed.

End Pipeline.

Lemma image_cb_without_path_witness :
  @image_cb grid 0 (@init grid [(5, 0)])
  = (Raise UnboundLocalError, @set_image grid 0 (@init grid [(5, 0)])) /\
  upcoming_red_light_pub (snd (@image_cb grid 0 (@init grid [(5, 0)]))) = [].
Proof.
  apply (@image_cb_without_path grid 0 (@init grid [(5, 0)])).
  - reflexivity.
  - discriminate.
Defined.



(** C9, as stated, fails on an empty path: the lookup of the first stop
    line raises ValueError. *)
Lemma process_traffic_lights_empty_path :
  pose empty_path = None /\
  waypoints empty_path = Some [] /\
  fst (@process_traffic_lights grid empty_path) = Raise ValueError /\
  fst (@process_traffic_lights grid empty_path) <> Ok (-1, PyInt (@UNKNOWN grid)).
Proof. repeat split. discriminate. Qed.

Lemma process_traffic_lights_without_pose_witness :
  exists r,
    closest_waypoints (with_lane 10 [(5, 0)]) = Ok r /\
    @process_traffic_lights grid (with_lane 10 [(5, 0)])
    = (Ok (-1, PyInt 4),
       set_stop_lines (stop_lines (with_lane 10 [(5, 0)]) ++ r)
         (with_lane 10 [(5, 0)])) /\
    light_classifier (snd (@process_traffic_lights grid (with_lane 10 [(5, 0)])))
    = light_classifier (with_lane 10 [(5, 0)]).
Proof.
  apply (@process_traffic_lights_without_pose grid (with_lane 10 [(5, 0)])
           (at_x 0) (tl (straight_lane 10))).
  - reflexivity.
  - reflexivity.
Defined.

Lemma stop_lines_accumulate_witness :
  closest_waypoints (snd (@process_traffic_lights grid (with_lane 10 [(5, 0)])))
  = Ok [5] /\
  stop_lines (snd (@process_traffic_lights grid (with_lane 10 [(5, 0)])))
  = [] ++ [5] /\
  stop_lines
    (snd (@process_traffic_lights grid
            (snd (@process_traffic_lights grid (with_lane 10 [(5, 0)])))))
  = ([] ++ [5]) ++ [5].
Proof.
  apply (@stop_lines_accumulate grid (with_lane 10 [(5, 0)]) [5]).
  reflexivity.
Defined.

(** ** Candidate selection *)
Section Selection.
Context {C : Collaborators}.

Lemma process_traffic_lights_no_candidate (self : TLDetector) (p : Position)
    (car : Z) (r : list Z) :
  pose self = Some p ->
  closest_waypoints self = Ok r ->
  fst (get_closest_waypoint p self) = Ok car ->
  Forall (fun w => ~ 0 < w - car < 150) (stop_lines self ++ r) ->
  process_traffic_lights self
  = (Ok (-1, PyInt UNKNOWN), set_stop_lines (stop_lines self ++ r) self).
Proof.
  intros Hp Hr Hcar Hall.
  rewrite (process_traffic_lights_resolved self r Hr). cbv zeta. rewrite Hp.
  rewrite (get_closest_waypoint_ext p _ self) by reflexivity. rewrite Hcar.
  unfold find_stop_line. now rewrite stop_line_loop_none.
Qed.

Lemma process_traffic_lights_candidate (self : TLDetector) (p : Position)
    (car : Z) (r pre post : list Z) (w : Z) (img : Image) :
  pose self = Some p ->
  closest_waypoints self = Ok r ->
  fst (get_closest_waypoint p self) = Ok car ->
  stop_lines self ++ r = pre ++ w :: post ->
  Forall (fun v => ~ 0 < v - car < 150) pre ->
  0 < w - car < 150 ->
  has_image self = Some true ->
  camera_image self = Some img ->
  process_traffic_lights self
  = (Ok (w, PyInt (get_classification img)),
     set_light_classifier (light_classifier self ++ [img])
       (set_stop_lines (stop_lines self ++ r) self)).
Proof.
  intros Hp Hr Hcar Hsplit Hpre Hw Hhas Himg.
  rewrite (process_traffic_lights_resolved self r Hr). cbv zeta. rewrite Hp.
  rewrite (get_closest_waypoint_ext p _ self) by reflexivity. rewrite Hcar.
  rewrite Hsplit at 1. unfold find_stop_line.
  rewrite stop_line_loop_first by assumption.
  unfold get_light_state, bind, get, modify, ret. simpl.
  now rewrite Hhas, Himg.
Qed.

(** C7. The horizon, for a car at waypoint [car]: a stop line at
    [car + 149] that no earlier stop line precedes in the window is the
    candidate, in the loop and in what process_traffic_lights returns;
    whatever the loop selects lies strictly between [car] and [car + 150],
    so a stop line at [car + 150] or beyond, at [car] or behind it is never
    selected; and with no stop line in the window there is no candidate and
    the result is (-1, UNKNOWN). *)
Theorem horizon_boundary (car : Z) :
  (forall pre post,
      Forall (fun v => ~ 0 < v - car < 150) pre ->
      find_stop_line car (pre ++ (car + 149) :: post)
      = (Some (length pre), 149, car + 149)) /\
  (forall self p r pre post img,
      pose self = Some p ->
      closest_waypoints self = Ok r ->
      fst (get_closest_waypoint p self) = Ok car ->
      stop_lines self ++ r = pre ++ (car + 149) :: post ->
      Forall (fun v => ~ 0 < v - car < 150) pre ->
      has_image self = Some true ->
      camera_image self = Some img ->
      fst (process_traffic_lights self)
      = Ok (car + 149, PyInt (get_classification img))) /\
  (forall l i d wp,
      find_stop_line car l = (Some i, d, wp) ->
      nth_error l i = Some wp /\ car < wp < car + 150) /\
  (forall l,
      Forall (fun v => ~ 0 < v - car < 150) l ->
      find_stop_line car l = (None, 150, -1)) /\
  (forall self p r,
      pose self = Some p ->
      closest_waypoints self = Ok r ->
      fst (get_closest_waypoint p self) = Ok car ->
      Forall (fun v => ~ 0 < v - car < 150) (stop_lines self ++ r) ->
      fst (process_traffic_lights self) = Ok (-1, PyInt UNKNOWN)).
Proof.
  repeat split.
  - intros pre post Hpre. unfold find_stop_line.
    rewrite stop_line_loop_first by (assumption || lia).
    f_equal. f_equal. lia.
  - intros self p r pre post img Hp Hr Hcar Hsplit Hpre Hhas Himg.
    rewrite (process_traffic_lights_candidate self p car r pre post
               (car + 149) img); auto. lia.
  - eapply find_stop_line_in_window; eassumption.
  - apply (find_stop_line_in_window car l i d wp H).
  - apply (find_stop_line_in_window car l i d wp H).
  - intros l Hl. unfold find_stop_line. now apply stop_line_loop_none.
  - intros self p r Hp Hr Hcar Hall.
    now rewrite (process_traffic_lights_no_candidate self p car r).
Qed.

(** C8. The candidate is the first stop line of the scanned list that lies
    in the window, whatever follows it: the loop stops there, and
    process_traffic_lights returns its waypoint with the classification of
    the current frame. It need not be the nearest one ahead: for a car at 0
    and stop lines at 100 and 50, in that order, the candidate is 100. *)
Theorem first_stop_line_in_scan_order (self : TLDetector) (p : Position)
    (car : Z) (r pre post : list Z) (w : Z) (img : Image) :
  pose self = Some p ->
  closest_waypoints self = Ok r ->
  fst (get_closest_waypoint p self) = Ok car ->
  stop_lines self ++ r = pre ++ w :: post ->
  Forall (fun v => ~ 0 < v - car < 150) pre ->
  0 < w - car < 150 ->
  has_image self = Some true ->
  camera_image self = Some img ->
  find_stop_line car (stop_lines self ++ r) = (Some (length pre), w - car, w) /\
  fst (process_traffic_lights self) = Ok (w, PyInt (get_classification img)) /\
  find_stop_line 0 [100; 50] = (Some 0%nat, 100, 100).
Proof.
  intros Hp Hr Hcar Hsplit Hpre Hw Hhas Himg. repeat split.
  - rewrite Hsplit. unfold find_stop_line.
    now rewrite stop_line_loop_first.
  - now rewrite (process_traffic_lights_candidate self p car r pre post w img).
Qed.

End Selection.

Lemma horizon_boundary_witness :
  find_stop_line 60 ([59; 60; 210] ++ (60 + 149) :: [100])
  = (Some 3%nat, 149, 60 + 149) /\
  fst (@process_traffic_lights grid (car_at_60_seeing 0 [59; 60; 210; 209; 100]))
  = Ok (60 + 149, PyInt 0) /\
  (nth_error [59; 60; 210; 100] 3 = Some 100 /\ 60 < 100 < 60 + 150) /\
  find_stop_line 60 [59; 60; 210] = (None, 150, -1) /\
  fst (@process_traffic_lights grid (car_at_60 [59; 60; 210]))
  = Ok (-1, PyInt 4).
Proof.
  destruct (@horizon_boundary grid 60) as (H1 & H2 & H3 & H4 & H5).
  assert (Hout : Forall (fun v => ~ 0 < v - 60 < 150) [59; 60; 210])
    by (repeat constructor; lia).
  repeat apply conj.
  - apply (H1 [59; 60; 210] [100] Hout).
  - apply (H2 (car_at_60_seeing 0 [59; 60; 210; 209; 100]) (at_x 60)
             [59; 60; 210; 209; 100] [59; 60; 210] [100] 0);
      solve [vm_compute; reflexivity | exact Hout].
  - apply (H3 [59; 60; 210; 100] 3%nat 40 100). reflexivity.
  - apply (H3 [59; 60; 210; 100] 3%nat 40 100). reflexivity.
  - apply (H3 [59; 60; 210; 100] 3%nat 40 100). reflexivity.
  - apply (H4 [59; 60; 210] Hout).
  - apply (H5 (car_at_60 [59; 60; 210]) (at_x 60) [59; 60; 210]);
      solve [vm_compute; reflexivity | exact Hout].
Defined.

Lemma first_stop_line_in_scan_order_witness :
  find_stop_line 60 (stop_lines (car_at_60_seeing 0 [160; 110]) ++ [160; 110])
  = (Some (length (@nil Z)), 160 - 60, 160) /\
  fst (@process_traffic_lights grid (car_at_60_seeing 0 [160; 110]))
  = Ok (160, PyInt 0) /\
  find_stop_line 0 [100; 50] = (Some 0%nat, 100, 100).
Proof.
  apply (@first_stop_line_in_scan_order grid
           (car_at_60_seeing 0 [160; 110]) (at_x 60) 60 [160; 110] [] [110]
           160 0);
    solve [vm_compute; reflexivity | constructor | lia].
Defined.

(** ** Selection from the accumulated list *)

Lemma copies_front (k : nat) (r : list Z) : copies (S k) r = r ++ copies k r.
Proof.
  induction k as [| k IH]; simpl.
  - now rewrite app_nil_r.
  - simpl in IH. rewrite IH at 1. now rewrite <- app_assoc.
Qed.

Lemma copies_rejected (car : Z) (k : nat) (r : list Z) :
  Forall (fun v => ~ 0 < v - car < 150) r ->
  Forall (fun v => ~ 0 < v - car < 150) (copies k r).
Proof.
  intros H. induction k as [| k IH]; simpl; [constructor |].
  apply Forall_app. now split.
Qed.

Lemma find_stop_line_copies (car : Z) (k : nat) (r : list Z) :
  find_stop_line car (copies (S k) r) = find_stop_line car r.
Proof.
  unfold find_stop_line.
  destruct (first_accepted car r) as [Hall | (pre & w & post & -> & Hpre & Hw)].
  - rewrite !stop_line_loop_none; auto using copies_rejected.
  - rewrite copies_front, <- app_assoc. simpl.
    now rewrite !stop_line_loop_first.
Qed.

(** The loop computes the selection of the specification. *)
Lemma stop_line_loop_find (car : Z) (l : list Z) (i : nat) (wp0 : Z) :
  candidate_of (stop_line_loop car i l None 150 wp0)
  = find (fun c => ahead_within_horizon car (snd c))
      (combine (seq i (length l)) l).
Proof.
  revert i. induction l as [| w l IH]; intros i; simpl; [reflexivity |].
  unfold ahead_within_horizon at 1.
  destruct ((0 <? w - car) && (w - car <? 150)); [reflexivity | apply IH].
Qed.

Lemma find_stop_line_selectCandidate (car : Z) (l : list Z) :
  candidate_of (find_stop_line car l) = selectCandidate car l.
Proof. apply stop_line_loop_find. Qed.

Section Accumulated.
Context {C : Collaborators}.

Lemma get_light_state_ext (l l' : nat) (s1 s2 : TLDetector) :
  has_image s1 = has_image s2 ->
  camera_image s1 = camera_image s2 ->
  fst (get_light_state l s1) = fst (get_light_state l' s2).
Proof.
  intros Hh Hc. unfold get_light_state, bind, get, modify, ret, raise. simpl.
  rewrite Hh, Hc.
  destruct (has_image s2) as [[|] |]; try reflexivity.
  now destruct (camera_image s2).
Qed.

(** The outcome of process_traffic_lights in terms of what it reads. *)
Lemma process_traffic_lights_outcome (self : TLDetector) (r : list Z) :
  closest_waypoints self = Ok r ->
  fst (process_traffic_lights self) =
    match pose self with
    | None => Ok (-1, PyInt UNKNOWN)
    | Some p =>
        match fst (get_closest_waypoint p self) with
        | Raise e => Raise e
        | Ok car_position =>
            match candidate_of
                    (find_stop_line car_position (stop_lines self ++ r)) with
            | Some (l, light_wp) =>
                match fst (get_light_state l self) with
                | Ok st => Ok (light_wp, st)
                | Raise e => Raise e
                end
            | None => Ok (-1, PyInt UNKNOWN)
            end
        end
    end.
Proof.
  intros H. rewrite (process_traffic_lights_resolved self r H). cbv zeta.
  destruct (pose self) as [p |]; [| reflexivity].
  rewrite (get_closest_waypoint_ext p _ self) by reflexivity.
  destruct (fst (get_closest_waypoint p self)) as [car | e]; [| reflexivity].
  destruct (find_stop_line car (stop_lines self ++ r)) as [[[l |] d] wp];
    [| reflexivity].
  simpl.
  rewrite <- (get_light_state_ext l l
                (set_stop_lines (stop_lines self ++ r) self) self)
    by reflexivity.
  now destruct (get_light_state l _) as [[st | e] s].
Qed.

(** C10. With the path and the configuration unchanged, [self.stop_lines]
    holds [k] copies of the resolved list [r] when a cycle starts. The loop
    over the extended list then selects, for every car position, what it
    selects from [r] alone, which is the selection of the specification on
    [r]; process_traffic_lights returns what it returns when
    [self.stop_lines] is empty; and the cycle leaves [k + 1] copies. *)
Theorem accumulated_stop_lines_select_alike (self : TLDetector) (r : list Z)
    (k : nat) :
  closest_waypoints self = Ok r ->
  stop_lines self = copies k r ->
  (forall car,
      find_stop_line car (stop_lines self ++ r) = find_stop_line car r /\
      candidate_of (find_stop_line car (stop_lines self ++ r))
      = selectCandidate car r) /\
  fst (process_traffic_lights self)
  = fst (process_traffic_lights (set_stop_lines [] self)) /\
  stop_lines (snd (process_traffic_lights self)) = copies (S k) r.
Proof.
  intros Hr Hk.
  assert (Hfind : forall car,
             find_stop_line car (stop_lines self ++ r) = find_stop_line car r).
  { intros car. rewrite Hk. apply (find_stop_line_copies car k r). }
  repeat split.
  - apply Hfind.
  - rewrite Hfind. apply find_stop_line_selectCandidate.
  - rewrite (process_traffic_lights_outcome self r Hr).
    rewrite (process_traffic_lights_outcome (set_stop_lines [] self) r)
      by (rewrite <- Hr; now apply closest_waypoints_ext).
    simpl. destruct (pose self) as [p |]; [| reflexivity].
    rewrite (get_closest_waypoint_ext p (set_stop_lines [] self) self)
      by reflexivity.
    destruct (fst (get_closest_waypoint p self)) as [car | e]; [| reflexivity].
    rewrite Hfind.
    destruct (candidate_of (find_stop_line car r)) as [[l wp] |];
      [| reflexivity].
    now rewrite (get_light_state_ext l l (set_stop_lines [] self) self).
  - destruct (process_traffic_lights_frame self r Hr) as (imgs & ->).
    simpl. now rewrite Hk.
Qed.

End Accumulated.

Lemma accumulated_stop_lines_select_alike_witness :
  (forall car,
      find_stop_line car (stop_lines after_two_cycles ++ [160; 110])
      = find_stop_line car [160; 110] /\
      candidate_of (find_stop_line car (stop_lines after_two_cycles ++ [160; 110]))
      = selectCandidate car [160; 110]) /\
  fst (@process_traffic_lights grid after_two_cycles)
  = fst (@process_traffic_lights grid (set_stop_lines [] after_two_cycles)) /\
  stop_lines (snd (@process_traffic_lights grid after_two_cycles))
  = copies 3 [160; 110].
Proof.
  apply (@accumulated_stop_lines_select_alike grid after_two_cycles
           [160; 110] 2).
  - vm_compute. reflexivity.
  - vm_compute. reflexivity.
Defined.

(** ** The debounce *)
Section Debounce.
Context {C : Collaborators}.

Lemma py_eq_refl (v : pyval) : py_eq v v = true.
Proof. apply Z.eqb_refl. Qed.

Lemma debounce_new (wp : Z) (st : pyval) (s : TLDetector) :
  py_eq (state s) st = false ->
  debounce wp st s
  = set_debounce st (last_state s) (last_wp s) 1
      (upcoming_red_light_pub s) s.
Proof. intros H. unfold debounce. now rewrite H. Qed.

Lemma debounce_held (wp : Z) (st : pyval) (s : TLDetector) :
  py_eq (state s) st = true ->
  state_count s < STATE_COUNT_THRESHOLD ->
  debounce wp st s
  = set_debounce (state s) (last_state s) (last_wp s) (state_count s + 1)
      (upcoming_red_light_pub s ++ [last_wp s]) s.
Proof.
  intros H Hc. unfold debounce. rewrite H. simpl.
  now replace (STATE_COUNT_THRESHOLD <=? state_count s) with false
    by (symmetry; apply Z.leb_gt; assumption).
Qed.

Lemma debounce_commit (wp : Z) (st : pyval) (s : TLDetector) :
  py_eq (state s) st = true ->
  STATE_COUNT_THRESHOLD <= state_count s ->
  debounce wp st s
  = set_debounce (state s) (state s) (committed st wp) (state_count s + 1)
      (upcoming_red_light_pub s ++ [committed st wp]) s.
Proof.
  intros H Hc. unfold debounce. rewrite H. simpl.
  now replace (STATE_COUNT_THRESHOLD <=? state_count s) with true
    by (symmetry; apply Z.leb_le; assumption).
Qed.

Lemma firstn_snoc {A : Type} (l : list A) (k : nat) (a : A) :
  nth_error l k = Some a -> firstn (S k) l = firstn k l ++ [a].
Proof.
  revert k. induction l as [| b l IH]; intros [| k] H; simpl in *;
    try discriminate.
  - now inversion H.
  - f_equal. now apply IH.
Qed.

Lemma debounce_after_step (self : TLDetector) (st : pyval) (wps : list Z)
    (k : nat) (wp : Z) :
  nth_error wps k = Some wp ->
  debounce_after self st wps (S k)
  = debounce wp st (debounce_after self st wps k).
Proof.
  intros H. unfold debounce_after, debounce_run, same_state_run.
  rewrite (firstn_snoc wps k wp H), map_app, fold_left_app. reflexivity.
Qed.

(** After [k >= 1] frames of the run the stored raw state is that of the
    run and it has been counted [k] times; up to the third frame nothing
    has been committed. *)
Lemma debounce_after_invariant (self : TLDetector) (st : pyval)
    (wps : list Z) (k : nat) :
  py_eq (state self) st = false ->
  (k < length wps)%nat ->
  state (debounce_after self st wps (S k)) = st /\
  state_count (debounce_after self st wps (S k)) = Z.of_nat (S k) /\
  ((S k <= 3)%nat ->
   last_wp (debounce_after self st wps (S k)) = last_wp self /\
   last_state (debounce_after self st wps (S k)) = last_state self).
Proof.
  intros Hnew. induction k as [| k IH]; intros Hk.
  - destruct wps as [| w wps]; [simpl in Hk; lia |].
    unfold debounce_after, debounce_run. simpl.
    rewrite (debounce_new w st self Hnew). simpl. auto.
  - destruct IH as (Hst & Hcnt & Hlast); [lia |].
    destruct (nth_error wps (S k)) as [wp |] eqn:Hnth;
      [| apply nth_error_None in Hnth; lia].
    rewrite (debounce_after_step self st wps (S k) wp Hnth).
    set (s := debounce_after self st wps (S k)) in *.
    assert (Heq : py_eq (state s) st = true)
      by (rewrite Hst; apply py_eq_refl).
    destruct (Z_lt_le_dec (state_count s) STATE_COUNT_THRESHOLD) as [Hc | Hc].
    + rewrite (debounce_held wp st s Heq Hc). simpl.
      unfold STATE_COUNT_THRESHOLD in Hc.
      repeat split; try (intros; apply Hlast); try assumption; try lia.
    + rewrite (debounce_commit wp st s Heq Hc). simpl.
      unfold STATE_COUNT_THRESHOLD in Hc.
      repeat split; try assumption; try lia.
Qed.

(** C1. In a run of frames with one raw state that differs from the stored
    one, no frame up to the third commits: the stable waypoint and state
    stay as they were, and the second and third frame publish the stable
    waypoint. Every frame from the fourth on commits: it publishes, and
    stores as stable, its candidate waypoint if the state is RED or YELLOW
    and -1 otherwise. Frame [k + 1] is the one with candidate
    [nth_error wps k]. *)
Theorem debounce_commits_from_fourth_frame (self : TLDetector) (st : pyval)
    (wps : list Z) (k : nat) (wp : Z) :
  py_eq (state self) st = false ->
  nth_error wps k = Some wp ->
  ((k < 3)%nat ->
   last_wp (debounce_after self st wps (S k)) = last_wp self /\
   last_state (debounce_after self st wps (S k)) = last_state self /\
   ((1 <= k)%nat ->
    upcoming_red_light_pub (debounce_after self st wps (S k))
    = upcoming_red_light_pub (debounce_after self st wps k) ++ [last_wp self]))
  /\
  ((3 <= k)%nat ->
   last_wp (debounce_after self st wps (S k)) = committed st wp /\
   last_state (debounce_after self st wps (S k)) = st /\
   upcoming_red_light_pub (debounce_after self st wps (S k))
   = upcoming_red_light_pub (debounce_after self st wps k)
     ++ [committed st wp]).
Proof.
  intros Hnew Hnth.
  assert (Hk : (k < length wps)%nat) by (apply nth_error_Some; congruence).
  split.
  - intros Hlt.
    destruct (debounce_after_invariant self st wps k Hnew Hk)
      as (_ & _ & Hlast).
    destruct Hlast as (Hwp & Hls); [lia |].
    repeat split; try assumption.
    intros Hge. destruct k as [| k]; [lia |].
    destruct (debounce_after_invariant self st wps k Hnew) as (Hst & Hcnt & Hprev);
      [lia |].
    destruct Hprev as (Hpwp & _); [lia |].
    rewrite (debounce_after_step self st wps (S k) wp Hnth).
    rewrite debounce_held.
    + simpl. now rewrite Hpwp.
    + rewrite Hst. apply py_eq_refl.
    + rewrite Hcnt. unfold STATE_COUNT_THRESHOLD. lia.
  - intros Hge. destruct k as [| k]; [lia |].
    destruct (debounce_after_invariant self st wps k Hnew) as (Hst & Hcnt & _);
      [lia |].
    rewrite (debounce_after_step self st wps (S k) wp Hnth).
    rewrite debounce_commit.
    + simpl. now rewrite Hst.
    + rewrite Hst. apply py_eq_refl.
    + rewrite Hcnt. unfold STATE_COUNT_THRESHOLD. lia.
Qed.

End Debounce.

Lemma debounce_commits_from_fourth_frame_witness :
  ((3 < 3)%nat ->
   last_wp (@debounce_after grid (@init grid []) (PyInt 0)
              [200; 200; 200; 200; 500] 4) = -1 /\
   last_state (@debounce_after grid (@init grid []) (PyInt 0)
                 [200; 200; 200; 200; 500] 4) = PyInt 4 /\
   ((1 <= 3)%nat ->
    upcoming_red_light_pub
      (@debounce_after grid (@init grid []) (PyInt 0)
         [200; 200; 200; 200; 500] 4)
    = upcoming_red_light_pub
        (@debounce_after grid (@init grid []) (PyInt 0)
           [200; 200; 200; 200; 500] 3) ++ [-1]))
  /\
  ((3 <= 3)%nat ->
   last_wp (@debounce_after grid (@init grid []) (PyInt 0)
              [200; 200; 200; 200; 500] 4) = 200 /\
   last_state (@debounce_after grid (@init grid []) (PyInt 0)
                 [200; 200; 200; 200; 500] 4) = PyInt 0 /\
   upcoming_red_light_pub
     (@debounce_after grid (@init grid []) (PyInt 0)
        [200; 200; 200; 200; 500] 4)
   = upcoming_red_light_pub
       (@debounce_after grid (@init grid []) (PyInt 0)
          [200; 200; 200; 200; 500] 3) ++ [200]).
Proof.
  apply (@debounce_commits_from_fourth_frame grid (@init grid []) (PyInt 0)
           [200; 200; 200; 200; 500] 3 200).
  - reflexivity.
  - reflexivity.
Defined.

(** The run on the grid: silence, two holds, then the commits 200 and 500. *)
Example debounce_run_trace :
  upcoming_red_light_pub
    (@debounce_after grid (@init grid []) (PyInt 0)
       [200; 200; 200; 200; 500] 5)
  = [-1; -1; 200; 500].
Proof. reflexivity. Qed.

(** C1, as stated, fails: after the third RED frame with candidate 200,
    starting from UNKNOWN, nothing has been committed. The stable waypoint
    is still -1 and the stable state still UNKNOWN, and what the third
    frame published is -1, where a commit would have given 200. *)
Lemma third_frame_does_not_commit :
  py_eq (state (@init grid [])) (PyInt 0) = false /\
  @committed grid (PyInt 0) 200 = 200 /\
  last_wp three_red_frames = -1 /\
  last_wp three_red_frames <> @committed grid (PyInt 0) 200 /\
  last_state three_red_frames = PyInt 4 /\
  upcoming_red_light_pub three_red_frames = [-1; -1].
Proof. repeat split. discriminate. Qed.

(** ** image_cb *)
Section Frame.
Context {C : Collaborators}.

(** process_traffic_lights writes neither the debounce attributes nor the
    publisher. *)
Lemma process_traffic_lights_keeps_decision (self : TLDetector) :
  let s := snd (process_traffic_lights self) in
  state s = state self /\
  last_state s = last_state self /\
  last_wp s = last_wp self /\
  state_count s = state_count self /\
  upcoming_red_light_pub s = upcoming_red_light_pub self.
Proof.
  destruct (closest_waypoints self) as [r | e] eqn:Hr.
  - destruct (process_traffic_lights_frame self r Hr) as (imgs & Hs).
    cbv zeta. rewrite Hs. simpl. auto.
  - rewrite (process_traffic_lights_raises self e Hr). simpl. auto.
Qed.

(** C3. A frame whose raw state differs from the stored one publishes
    nothing: image_cb returns with the publisher as it was, the new raw
    state stored and counted once. *)
Theorem image_cb_silent_on_new_state (msg : Image) (self : TLDetector)
    (light_wp : Z) (st : pyval) :
  fst (process_traffic_lights (set_image msg self)) = Ok (light_wp, st) ->
  py_eq (state self) st = false ->
  fst (image_cb msg self) = Ok tt /\
  upcoming_red_light_pub (snd (image_cb msg self))
  = upcoming_red_light_pub self /\
  state (snd (image_cb msg self)) = st /\
  state_count (snd (image_cb msg self)) = 1 /\
  last_wp (snd (image_cb msg self)) = last_wp self.
Proof.
  intros Hp Hnew.
  destruct (process_traffic_lights_keeps_decision (set_image msg self))
    as (Hst & _ & Hwp & _ & Hpub).
  unfold image_cb, bind, modify. simpl.
  destruct (process_traffic_lights (set_image msg self)) as [[r | e] s1];
    simpl in Hp; [| discriminate].
  inversion Hp; subst r. simpl in *.
  rewrite debounce_new by (now rewrite Hst).
  simpl. auto.
Qed.

(** Every other frame that image_cb completes publishes one message:
    the stable waypoint below the threshold, the committed one from it. *)
Lemma debounce_publishes (light_wp : Z) (st : pyval) (self : TLDetector) :
  upcoming_red_light_pub (debounce light_wp st self)
  = upcoming_red_light_pub self ++
    (if negb (py_eq (state self) st) then []
     else if STATE_COUNT_THRESHOLD <=? state_count self
          then [committed st light_wp]
          else [last_wp self]).
Proof.
  unfold debounce, committed.
  destruct (py_eq (state self) st); simpl.
  - now destruct (STATE_COUNT_THRESHOLD <=? state_count self).
  - now rewrite app_nil_r.
Qed.

End Frame.

Lemma image_cb_silent_on_new_state_witness :
  fst (@image_cb grid 0 (car_at_60 [160; 110])) = Ok tt /\
  upcoming_red_light_pub (snd (@image_cb grid 0 (car_at_60 [160; 110])))
  = upcoming_red_light_pub (car_at_60 [160; 110]) /\
  state (snd (@image_cb grid 0 (car_at_60 [160; 110]))) = PyInt 0 /\
  state_count (snd (@image_cb grid 0 (car_at_60 [160; 110]))) = 1 /\
  last_wp (snd (@image_cb grid 0 (car_at_60 [160; 110])))
  = last_wp (car_at_60 [160; 110]).
Proof.
  apply (@image_cb_silent_on_new_state grid 0 (car_at_60 [160; 110])
           160 (PyInt 0)).
  - vm_compute. reflexivity.
  - reflexivity.
Defined.

(** * Further properties of the node *)

(** ** Outcomes of the lookup *)
Section LookupOutcome.
Context {C : Collaborators}.

Lemma argmin_from_bound {D : Type} (lt : D -> D -> bool) (row : list D)
    (best i : nat) (m : D) :
  (best < i)%nat ->
  (argmin_from lt best m i row < i + length row)%nat.
Proof.
  revert best i m.
  induction row as [| d row IH]; intros best i m Hb; simpl; [lia |].
  destruct (lt d m).
  - specialize (IH i (S i) d). lia.
  - specialize (IH best (S i) m). lia.
Qed.

Lemma nearest_in_path (node : coord * coord * coord) (lane : list Position)
    (i : nat) :
  nearest node lane = Some i -> (i < length lane)%nat.
Proof.
  unfold nearest, argmin.
  destruct lane as [| w lane]; simpl; [discriminate |].
  intros H. inversion H; subst i.
  pose proof (argmin_from_bound dist_lt
                (map (fun v => cdist node (get_coordinates_vector v)) lane)
                0%nat 1%nat (cdist node (get_coordinates_vector w))) as Hb.
  rewrite length_map in Hb. lia.
Qed.

Lemma get_closest_waypoint_in_path (p : Position) (self : TLDetector)
    (lane : list Position) (i : Z) :
  waypoints self = Some lane ->
  fst (get_closest_waypoint p self) = Ok i ->
  0 <= i < Z.of_nat (length lane).
Proof.
  intros Hw. unfold get_closest_waypoint, bind, get, ret, raise. simpl.
  rewrite Hw.
  destruct (nearest (get_coordinates_vector p) lane) as [n |] eqn:Hn; simpl;
    [| discriminate].
  intros H. inversion H; subst i.
  apply nearest_in_path in Hn. lia.
Qed.

(** X1. get_closest_waypoint raises UnboundLocalError when no path has
    been received and ValueError when the path has no points; otherwise it
    returns an index of the path. It writes no attribute. *)
Theorem get_closest_waypoint_outcome (p : Position) (self : TLDetector) :
  snd (get_closest_waypoint p self) = self /\
  match waypoints self with
  | None => fst (get_closest_waypoint p self) = Raise UnboundLocalError
  | Some [] => fst (get_closest_waypoint p self) = Raise ValueError
  | Some (w :: lane) =>
      exists i : nat,
        fst (get_closest_waypoint p self) = Ok (Z.of_nat i) /\
        (i < length (w :: lane))%nat
  end.
Proof.
  split; [apply get_closest_waypoint_reads |].
  destruct (waypoints self) as [[| w lane] |] eqn:Hw.
  - unfold get_closest_waypoint, bind, get, raise. simpl. now rewrite Hw.
  - destruct (get_closest_waypoint_some p self w lane Hw) as (i & Hi).
    exists i. rewrite Hi. split; [reflexivity |].
    pose proof (get_closest_waypoint_in_path p self (w :: lane) (Z.of_nat i) Hw)
      as Hb.
    rewrite Hi in Hb. specialize (Hb eq_refl). lia.
  - now rewrite get_closest_waypoint_no_path.
Qed.

Lemma mapM_stoplight_in_path (cfg : list (coord * coord)) (self : TLDetector)
    (lane : list Position) (r : list Z) :
  waypoints self = Some lane ->
  fst (mapM get_closest_stoplight_waypoint cfg self) = Ok r ->
  length r = length cfg /\
  Forall (fun i => 0 <= i < Z.of_nat (length lane)) r.
Proof.
  intros Hw. revert r.
  induction cfg as [| c cfg IH]; intros r; simpl.
  - intros H. inversion H. split; [reflexivity | constructor].
  - unfold bind. rewrite get_closest_stoplight_waypoint_eq.
    destruct (fst (get_closest_stoplight_waypoint c self)) as [i | e] eqn:Hi;
      [| discriminate].
    rewrite (pair_with_snd _ self (mapM_stoplight_reads cfg self)).
    destruct (fst (mapM get_closest_stoplight_waypoint cfg self)) as [r' | e];
      [| discriminate].
    simpl. intros H. inversion H; subst r.
    destruct (IH r' eq_refl) as (Hlen & Hall).
    split; [simpl; now rewrite Hlen |].
    constructor; [| assumption].
    unfold get_closest_stoplight_waypoint in Hi.
    eapply get_closest_waypoint_in_path; eassumption.
Qed.

(** X2. On a non-empty path the list comprehension of
    process_traffic_lights resolves every configured stop line: it yields
    one index per stop line, in configuration order, each an index of the
    path. *)
Theorem closest_waypoints_in_path (self : TLDetector) (w : Position)
    (lane : list Position) :
  waypoints self = Some (w :: lane) ->
  exists r,
    closest_waypoints self = Ok r /\
    length r = length (config self) /\
    Forall (fun i => 0 <= i < Z.of_nat (length (w :: lane))) r.
Proof.
  intros Hw.
  destruct (closest_waypoints_some self w lane Hw) as (r & Hr & _).
  exists r. split; [exact Hr |].
  apply (mapM_stoplight_in_path (config self) self (w :: lane) r Hw Hr).
Qed.

End LookupOutcome.

Lemma closest_waypoints_in_path_witness :
  exists r,
    closest_waypoints (with_lane 10 [(5, 0); (42, 3); (-7, 0)]) = Ok r /\
    length r = length (config (with_lane 10 [(5, 0); (42, 3); (-7, 0)])) /\
    Forall (fun i => 0 <= i < Z.of_nat (length (at_x 0 :: tl (straight_lane 10))))
      r.
Proof.
  apply (@closest_waypoints_in_path grid
           (with_lane 10 [(5, 0); (42, 3); (-7, 0)]) (at_x 0)
           (tl (straight_lane 10))).
  reflexivity.
Defined.

(** Stop lines beyond either end of the path resolve to its end points. *)
Example closest_waypoints_clamped :
  closest_waypoints (with_lane 10 [(5, 0); (42, 3); (-7, 0)]) = Ok [5; 9; 0].
Proof. reflexivity. Qed.

(** ** One frame through image_cb *)
Section OneFrame.
Context {C : Collaborators}.

Lemma image_cb_unfold (msg : Image) (self : TLDetector) :
  image_cb msg self =
    match process_traffic_lights (set_image msg self) with
    | (Ok r, s1) => (Ok tt, debounce (fst r) (snd r) s1)
    | (Raise e, s1) => (Raise e, s1)
    end.
Proof.
  unfold image_cb, bind, modify. simpl.
  now destruct (process_traffic_lights (set_image msg self)) as [[r | e] s1].
Qed.

(** The debounce writes only its own attributes and the publisher. *)
Lemma debounce_frame (light_wp : Z) (st : pyval) (s : TLDetector) :
  let s' := debounce light_wp st s in
  pose s' = pose s /\ waypoints s' = waypoints s /\ config s' = config s /\
  stop_lines s' = stop_lines s /\ has_image s' = has_image s /\
  camera_image s' = camera_image s /\
  light_classifier s' = light_classifier s.
Proof.
  unfold debounce.
  destruct (negb (py_eq (state s) st)); [simpl; tauto |].
  destruct (STATE_COUNT_THRESHOLD <=? state_count s); simpl; tauto.
Qed.

Lemma get_light_state_outcome (l : nat) (s : TLDetector) :
  (exists img,
      has_image s = Some true /\ camera_image s = Some img /\
      get_light_state l s
      = (Ok (PyInt (get_classification img)),
         set_light_classifier (light_classifier s ++ [img]) s)) \/
  (has_image s <> Some true \/ camera_image s = None) /\
  snd (get_light_state l s) = s /\
  (fst (get_light_state l s) = Raise AttributeError \/
   fst (get_light_state l s) = Ok (PyBool false)).
Proof.
  unfold get_light_state, bind, get, modify, ret, raise. simpl.
  destruct (has_image s) as [[|] |].
  - destruct (camera_image s) as [img |].
    + left. exists img. auto.
    + right. auto.
  - right. repeat split; auto. left. discriminate.
  - right. repeat split; auto. left. discriminate.
Qed.

(** The attributes process_traffic_lights leaves: as they were when the
    comprehension raises; otherwise [self.stop_lines] extended, and the
    classifier called with the stored frame if it was called. *)
Lemma process_traffic_lights_state (self : TLDetector) :
  (exists e, closest_waypoints self = Raise e /\
             snd (process_traffic_lights self) = self) \/
  (exists r,
      closest_waypoints self = Ok r /\
      (snd (process_traffic_lights self)
       = set_stop_lines (stop_lines self ++ r) self \/
       exists img,
         camera_image self = Some img /\
         snd (process_traffic_lights self)
         = set_light_classifier (light_classifier self ++ [img])
             (set_stop_lines (stop_lines self ++ r) self))).
Proof.
  destruct (closest_waypoints self) as [r | e] eqn:Hr.
  - right. exists r. split; [reflexivity |].
    rewrite (process_traffic_lights_resolved self r Hr). cbv zeta.
    set (self' := set_stop_lines (stop_lines self ++ r) self).
    destruct (pose self) as [p |]; [| now left].
    destruct (fst (get_closest_waypoint p self')) as [car | e]; [| now left].
    destruct (find_stop_line car (stop_lines self ++ r)) as [[[l |] d] wp];
      [| now left].
    destruct (get_light_state_outcome l self')
      as [(img & _ & Himg & ->) | (_ & Hs & _)].
    + right. exists img. split; [exact Himg | reflexivity].
    + left. rewrite <- Hs at 2.
      now destruct (get_light_state l self') as [[st | e] s].
  - left. exists e. split; [reflexivity |].
    now rewrite (process_traffic_lights_raises self e Hr).
Qed.

(** A waypoint returned by process_traffic_lights is -1 or one of the
    stop lines stored when it returns. *)
Lemma process_traffic_lights_wp_stored (self : TLDetector) (wp : Z)
    (st : pyval) :
  fst (process_traffic_lights self) = Ok (wp, st) ->
  wp = -1 \/ In wp (stop_lines (snd (process_traffic_lights self))).
Proof.
  intros H.
  destruct (closest_waypoints self) as [r | e] eqn:Hr;
    [| rewrite (process_traffic_lights_raises self e Hr) in H; discriminate].
  destruct (process_traffic_lights_frame self r Hr) as (imgs & ->). simpl.
  rewrite (process_traffic_lights_outcome self r Hr) in H.
  destruct (pose self) as [p |]; [| inversion H; now left].
  destruct (fst (get_closest_waypoint p self)) as [car | e]; [| discriminate].
  destruct (find_stop_line car (stop_lines self ++ r)) as [[[l |] d] w] eqn:Hf;
    simpl in H; [| inversion H; now left].
  destruct (fst (get_light_state l self)) as [st' | e]; [| discriminate].
  inversion H; subst. right.
  destruct (find_stop_line_in_window car _ l d wp Hf) as (Hnth & _).
  eapply nth_error_In; eassumption.
Qed.

(** X3. Whatever process_traffic_lights returns is either (-1, UNKNOWN) or
    a stop line selected for a received pose: the waypoint lies strictly
    ahead of the car's waypoint by less than 150, it is one of the stored
    stop lines, and the state is what get_light_state gives. *)
Theorem process_traffic_lights_result (self : TLDetector) (wp : Z)
    (st : pyval) :
  fst (process_traffic_lights self) = Ok (wp, st) ->
  (wp = -1 /\ st = PyInt UNKNOWN) \/
  (exists p car l,
      pose self = Some p /\
      fst (get_closest_waypoint p self) = Ok car /\
      car < wp < car + 150 /\
      nth_error (stop_lines (snd (process_traffic_lights self))) l = Some wp /\
      fst (get_light_state l self) = Ok st).
Proof.
  intros H.
  destruct (closest_waypoints self) as [r | e] eqn:Hr;
    [| rewrite (process_traffic_lights_raises self e Hr) in H; discriminate].
  destruct (process_traffic_lights_frame self r Hr) as (imgs & ->). simpl.
  rewrite (process_traffic_lights_outcome self r Hr) in H.
  destruct (pose self) as [p |]; [| inversion H; now left].
  destruct (fst (get_closest_waypoint p self)) as [car | e] eqn:Hcar;
    [| discriminate].
  destruct (find_stop_line car (stop_lines self ++ r)) as [[[l |] d] w] eqn:Hf;
    simpl in H; [| inversion H; now left].
  destruct (fst (get_light_state l self)) as [st' | e] eqn:Hst;
    [| discriminate].
  inversion H; subst. right.
  destruct (find_stop_line_in_window car _ l d wp Hf) as (Hnth & _ & Hwin).
  exists p, car, l. auto.
Qed.

(** X4. Within image_cb the frame has been stored before
    process_traffic_lights runs, so the no-image branch of get_light_state
    is never taken there: whenever process_traffic_lights returns for a
    frame, the result is (-1, UNKNOWN), or the state is the classifier's
    answer for that very frame and the classifier was called exactly once,
    with it. The state is never the False of the no-image branch. *)
Theorem frame_state_from_classifier (msg : Image) (self : TLDetector)
    (wp : Z) (st : pyval) :
  fst (process_traffic_lights (set_image msg self)) = Ok (wp, st) ->
  (wp = -1 /\ st = PyInt UNKNOWN /\
   light_classifier (snd (process_traffic_lights (set_image msg self)))
   = light_classifier self) \/
  (st = PyInt (get_classification msg) /\
   light_classifier (snd (process_traffic_lights (set_image msg self)))
   = light_classifier self ++ [msg]).
Proof.
  intros H. set (s := set_image msg self) in *.
  destruct (closest_waypoints s) as [r | e] eqn:Hr;
    [| rewrite (process_traffic_lights_raises s e Hr) in H; discriminate].
  rewrite (process_traffic_lights_resolved s r Hr) in *. cbv zeta in *.
  set (s' := set_stop_lines (stop_lines s ++ r) s) in *.
  destruct (pose s) as [p |]; [| inversion H; left; auto].
  destruct (fst (get_closest_waypoint p s')) as [car | e]; [| discriminate].
  destruct (find_stop_line car (stop_lines s ++ r)) as [[[l |] d] w];
    [| inversion H; left; auto].
  destruct (get_light_state_outcome l s')
    as [(img & _ & Himg & Hgls) | ([Hne | Hne] & _)].
  - rewrite Hgls in *. simpl in H. inversion Himg; subst img.
    inversion H; subst. right. auto.
  - now elim Hne.
  - discriminate.
Qed.

(** X5. One frame, whether image_cb returns or raises: the frame is stored,
    pose, path and configuration are kept, at most one message is
    published, and the classifier is called at most once, with this
    frame. *)
Theorem image_cb_frame (msg : Image) (self : TLDetector) :
  let s' := snd (image_cb msg self) in
  has_image s' = Some true /\ camera_image s' = Some msg /\
  pose s' = pose self /\ waypoints s' = waypoints self /\
  config s' = config self /\
  (upcoming_red_light_pub s' = upcoming_red_light_pub self \/
   exists m, upcoming_red_light_pub s' = upcoming_red_light_pub self ++ [m]) /\
  (light_classifier s' = light_classifier self \/
   light_classifier s' = light_classifier self ++ [msg]).
Proof.
  cbv zeta. rewrite image_cb_unfold.
  pose proof (process_traffic_lights_keeps_decision (set_image msg self))
    as (Hst & _ & Hwp & _ & Hpub).
  assert (Hframe :
    let s1 := snd (process_traffic_lights (set_image msg self)) in
    has_image s1 = Some true /\ camera_image s1 = Some msg /\
    pose s1 = pose self /\ waypoints s1 = waypoints self /\
    config s1 = config self /\
    (light_classifier s1 = light_classifier self \/
     light_classifier s1 = light_classifier self ++ [msg])).
  { destruct (process_traffic_lights_state (set_image msg self))
      as [(e & _ & ->) | (r & _ & [-> | (img & Himg & ->)])];
      simpl; repeat split; auto.
    simpl in Himg. inversion Himg. now right. }
  destruct (process_traffic_lights (set_image msg self)) as [[r | e] s1];
    simpl in *.
  - destruct (debounce_frame (fst r) (snd r) s1)
      as (Hp & Hw & Hc & _ & Hh & Hi & Hl).
    rewrite Hp, Hw, Hc, Hh, Hi, Hl.
    destruct Hframe as (? & ? & ? & ? & ? & ?).
    repeat split; auto.
    rewrite debounce_publishes, Hpub.
    destruct (negb (py_eq (state s1) (snd r)));
      [left; apply app_nil_r |].
    destruct (STATE_COUNT_THRESHOLD <=? state_count s1); right; eauto.
  - destruct Hframe as (? & ? & ? & ? & ? & ?).
    repeat split; auto.
Qed.

End OneFrame.

Lemma process_traffic_lights_result_witness :
  (160 = -1 /\ PyInt 0 = PyInt (@UNKNOWN grid)) \/
  (exists p car l,
      pose (car_at_60_seeing 0 [160; 110]) = Some p /\
      fst (@get_closest_waypoint grid p (car_at_60_seeing 0 [160; 110]))
      = Ok car /\
      car < 160 < car + 150 /\
      nth_error
        (stop_lines
           (snd (@process_traffic_lights grid (car_at_60_seeing 0 [160; 110]))))
        l = Some 160 /\
      fst (@get_light_state grid l (car_at_60_seeing 0 [160; 110]))
      = Ok (PyInt 0)).
Proof.
  apply (@process_traffic_lights_result grid (car_at_60_seeing 0 [160; 110])
           160 (PyInt 0)).
  vm_compute. reflexivity.
Defined.

Lemma frame_state_from_classifier_witness :
  (160 = -1 /\ PyInt 0 = PyInt (@UNKNOWN grid) /\
   light_classifier
     (snd (@process_traffic_lights grid
             (@set_image grid 0 (car_at_60 [160; 110]))))
   = light_classifier (car_at_60 [160; 110])) \/
  (PyInt 0 = PyInt (@get_classification grid 0) /\
   light_classifier
     (snd (@process_traffic_lights grid
             (@set_image grid 0 (car_at_60 [160; 110]))))
   = light_classifier (car_at_60 [160; 110]) ++ [0]).
Proof.
  apply (@frame_state_from_classifier grid 0 (car_at_60 [160; 110]) 160
           (PyInt 0)).
  vm_compute. reflexivity.
Defined.

(** ** Sequences of messages *)
Section Messages.
Context {C : Collaborators}.

Lemma closest_waypoints_nonneg (self : TLDetector) (r : list Z) :
  closest_waypoints self = Ok r -> Forall (fun i => 0 <= i) r.
Proof.
  intros Hr. destruct (waypoints self) as [lane |] eqn:Hw.
  - destruct (mapM_stoplight_in_path (config self) self lane r Hw Hr)
      as (_ & Hall).
    eapply Forall_impl; [| exact Hall]. simpl. intros i Hi. lia.
  - destruct (config self) as [| c cfg] eqn:Hc.
    + unfold closest_waypoints in Hr. rewrite Hc in Hr. simpl in Hr.
      inversion Hr. constructor.
    + rewrite closest_waypoints_no_path in Hr; [discriminate | assumption |].
      rewrite Hc. discriminate.
Qed.

(** What a frame does to [self.stop_lines]: it appends the resolved stop
    lines, or nothing when the resolution raises. *)
Lemma image_cb_stop_lines (msg : Image) (self : TLDetector) :
  exists ext,
    stop_lines (snd (image_cb msg self)) = stop_lines self ++ ext /\
    Forall (fun i => 0 <= i) ext /\
    (closest_waypoints self = Ok ext \/
     ext = [] /\ exists e, closest_waypoints self = Raise e).
Proof.
  assert (Hcw : closest_waypoints (set_image msg self) = closest_waypoints self)
    by (now apply closest_waypoints_ext).
  assert (Hs1 : exists ext,
             stop_lines (snd (process_traffic_lights (set_image msg self)))
             = stop_lines self ++ ext /\
             Forall (fun i => 0 <= i) ext /\
             (closest_waypoints self = Ok ext \/
              ext = [] /\ exists e, closest_waypoints self = Raise e)).
  { destruct (process_traffic_lights_state (set_image msg self))
      as [(e & He & ->) | (r & Hr & Hs)].
    - exists []. simpl. rewrite app_nil_r. rewrite Hcw in He.
      repeat split; [constructor | right; eauto].
    - exists r. rewrite Hcw in Hr.
      repeat split; [| eapply closest_waypoints_nonneg; eassumption | now left].
      destruct Hs as [-> | (img & _ & ->)]; reflexivity. }
  rewrite image_cb_unfold.
  destruct (process_traffic_lights (set_image msg self)) as [[res | e] s1];
    simpl in *; [| exact Hs1].
  destruct (debounce_frame (fst res) (snd res) s1) as (_ & _ & _ & -> & _).
  exact Hs1.
Qed.

Lemma image_cb_keeps_inputs (msg : Image) (self : TLDetector) :
  pose (snd (image_cb msg self)) = pose self /\
  waypoints (snd (image_cb msg self)) = waypoints self /\
  config (snd (image_cb msg self)) = config self.
Proof.
  assert (Hs1 :
    let s1 := snd (process_traffic_lights (set_image msg self)) in
    pose s1 = pose self /\ waypoints s1 = waypoints self /\
    config s1 = config self).
  { destruct (process_traffic_lights_state (set_image msg self))
      as [(e & _ & ->) | (r & _ & [-> | (img & _ & ->)])];
      simpl; auto. }
  rewrite image_cb_unfold.
  destruct (process_traffic_lights (set_image msg self)) as [[res | e] s1];
    simpl in *; [| exact Hs1].
  destruct (debounce_frame (fst res) (snd res) s1) as (-> & -> & -> & _).
  exact Hs1.
Qed.

Lemma deliver_keeps_resolution (m : message) (self : TLDetector) :
  is_lane m = false ->
  closest_waypoints (snd (deliver m self)) = closest_waypoints self.
Proof.
  intros Hm. apply closest_waypoints_ext; destruct m as [p | lane | img];
    try discriminate; try reflexivity; simpl;
    now destruct (image_cb_keeps_inputs img self) as (_ & ? & ?).
Qed.

Lemma spin_cons (m : message) (ms : list message) (self : TLDetector) :
  spin (m :: ms) self = spin ms (snd (deliver m self)).
Proof. reflexivity. Qed.

(** X6. While no new path arrives, every frame appends the same resolved
    list [r] to [self.stop_lines], and pose messages leave it alone: after
    [n] frames the list has grown by [n] copies of [r]. *)
Theorem stop_lines_after_frames (self : TLDetector) (r : list Z)
    (ms : list message) :
  closest_waypoints self = Ok r ->
  forallb (fun m => negb (is_lane m)) ms = true ->
  stop_lines (spin ms self)
  = stop_lines self ++ copies (length (filter is_frame ms)) r /\
  length (stop_lines (spin ms self))
  = (length (stop_lines self)
     + length (filter is_frame ms) * length (config self))%nat.
Proof.
  intros Hr Hms.
  assert (Hlen : length r = length (config self)).
  { destruct (waypoints self) as [lane |] eqn:Hw.
    - now destruct (mapM_stoplight_in_path (config self) self lane r Hw Hr).
    - destruct (config self) as [| c cfg] eqn:Hc.
      + unfold closest_waypoints in Hr. rewrite Hc in Hr. simpl in Hr.
        now inversion Hr.
      + rewrite closest_waypoints_no_path in Hr; [discriminate | assumption |].
        rewrite Hc. discriminate. }
  assert (Hcopies : forall n, length (copies n r) = (n * length r)%nat).
  { induction n as [| n IH]; simpl; [reflexivity |].
    rewrite length_app, IH. lia. }
  assert (H : stop_lines (spin ms self)
              = stop_lines self ++ copies (length (filter is_frame ms)) r).
  { clear Hlen. revert self Hr.
    induction ms as [| m ms IH]; intros self Hr.
    - simpl. now rewrite app_nil_r.
    - simpl in Hms. apply andb_prop in Hms as [Hm Hms].
      apply negb_true_iff in Hm.
      rewrite spin_cons, (IH Hms)
        by (now rewrite deliver_keeps_resolution).
      destruct m as [p | lane | img]; simpl; [reflexivity | discriminate |].
      destruct (image_cb_stop_lines img self)
        as (ext & -> & _ & [Hext | (_ & e & He)]); [| congruence].
      assert (ext = r) by congruence. subst ext.
      rewrite <- app_assoc. f_equal.
      apply (eq_sym (copies_front (length (filter is_frame ms)) r)). }
  split; [exact H |].
  rewrite H, length_app, Hcopies, Hlen. reflexivity.
Qed.

Lemma deliver_extends_stop_lines (m : message) (self : TLDetector) :
  exists ext,
    stop_lines (snd (deliver m self)) = stop_lines self ++ ext /\
    Forall (fun i => 0 <= i) ext.
Proof.
  destruct m as [p | lane | img]; simpl.
  - exists []. now rewrite app_nil_r.
  - exists []. now rewrite app_nil_r.
  - destruct (image_cb_stop_lines img self) as (ext & H & Hall & _). eauto.
Qed.

(** X7. No callback shortens or reorders [self.stop_lines]: whatever
    messages arrive, a new path included, the list afterwards is the list
    before followed by what the frames appended. *)
Theorem stop_lines_only_grow (ms : list message) (self : TLDetector) :
  exists ext,
    stop_lines (spin ms self) = stop_lines self ++ ext /\
    Forall (fun i => 0 <= i) ext.
Proof.
  revert self. induction ms as [| m ms IH]; intros self.
  - exists []. simpl. now rewrite app_nil_r.
  - rewrite spin_cons.
    destruct (IH (snd (deliver m self))) as (ext2 & -> & H2).
    destruct (deliver_extends_stop_lines m self) as (ext1 & -> & H1).
    exists (ext1 ++ ext2). rewrite app_assoc.
    split; [reflexivity | now apply Forall_app].
Qed.

Lemma decisions_grow (s s' : TLDetector) (ext : list Z) :
  decisions_from_stop_lines s ->
  stop_lines s' = stop_lines s ++ ext ->
  Forall (fun i => 0 <= i) ext ->
  last_wp s' = last_wp s ->
  upcoming_red_light_pub s' = upcoming_red_light_pub s ->
  decisions_from_stop_lines s'.
Proof.
  intros (Hsl & Hwp & Hpub) Hext Hall Hl Hp.
  unfold decisions_from_stop_lines. rewrite Hext, Hl, Hp.
  repeat split.
  - now apply Forall_app.
  - destruct Hwp as [? | ?]; [now left | right; apply in_or_app; now left].
  - eapply Forall_impl; [| exact Hpub]. simpl.
    intros m [? | ?]; [now left | right; apply in_or_app; now left].
Qed.

Lemma decisions_debounce (light_wp : Z) (st : pyval) (s : TLDetector) :
  decisions_from_stop_lines s ->
  light_wp = -1 \/ In light_wp (stop_lines s) ->
  decisions_from_stop_lines (debounce light_wp st s).
Proof.
  intros (Hsl & Hwp & Hpub) Hin.
  assert (Hc : committed st light_wp = -1 \/
               In (committed st light_wp) (stop_lines s)).
  { unfold committed.
    destruct (py_eq st (PyInt RED) || py_eq st (PyInt YELLOW));
      [assumption | now left]. }
  unfold decisions_from_stop_lines.
  destruct (py_eq (state s) st) eqn:Heq.
  - destruct (Z_lt_le_dec (state_count s) STATE_COUNT_THRESHOLD) as [Hlt | Hge].
    + rewrite (debounce_held light_wp st s Heq Hlt). simpl.
      repeat split; try assumption.
      apply Forall_app. split; [assumption | now constructor].
    + rewrite (debounce_commit light_wp st s Heq Hge). simpl.
      repeat split; try assumption.
      apply Forall_app. split; [assumption | now constructor].
  - rewrite (debounce_new light_wp st s Heq). simpl. auto.
Qed.

Lemma decisions_deliver (m : message) (self : TLDetector) :
  decisions_from_stop_lines self ->
  decisions_from_stop_lines (snd (deliver m self)).
Proof.
  intros Hinv. destruct m as [p | lane | img]; simpl;
    [exact Hinv | exact Hinv |].
  rewrite image_cb_unfold.
  pose proof (process_traffic_lights_keeps_decision (set_image img self))
    as (_ & _ & Hwp & _ & Hpub).
  assert (Hs1 : decisions_from_stop_lines
                  (snd (process_traffic_lights (set_image img self)))).
  { destruct (process_traffic_lights_state (set_image img self))
      as [(e & _ & Hs) | (r & Hr & Hs)].
    - rewrite Hs. exact Hinv.
    - apply (decisions_grow self _ r Hinv); try assumption.
      + destruct Hs as [-> | (i & _ & ->)]; reflexivity.
      + eapply closest_waypoints_nonneg; eassumption. }
  pose proof (process_traffic_lights_wp_stored (set_image img self)) as Hin.
  destruct (process_traffic_lights (set_image img self)) as [[res | e] s1];
    simpl in *; [| exact Hs1].
  apply decisions_debounce; [exact Hs1 |].
  apply (Hin (fst res) (snd res)). now destruct res.
Qed.

(** X8. From startup on, whatever messages arrive and in whatever order,
    every message published on /traffic_waypoint is -1 or a stop-line
    waypoint that a frame has resolved and stored, hence not negative; the
    same holds of the stable waypoint [last_wp]. *)
Theorem published_from_stop_lines (stop_line_positions : list (coord * coord))
    (ms : list message) :
  Forall (fun m =>
            m = -1 \/
            0 <= m /\ In m (stop_lines (spin ms (init stop_line_positions))))
    (upcoming_red_light_pub (spin ms (init stop_line_positions))) /\
  (last_wp (spin ms (init stop_line_positions)) = -1 \/
   0 <= last_wp (spin ms (init stop_line_positions)) /\
   In (last_wp (spin ms (init stop_line_positions)))
     (stop_lines (spin ms (init stop_line_positions)))).
Proof.
  assert (H : forall s, decisions_from_stop_lines s ->
                        decisions_from_stop_lines (spin ms s)).
  { induction ms as [| m ms IH]; intros s Hs; [exact Hs |].
    rewrite spin_cons. apply IH. now apply decisions_deliver. }
  destruct (H (init stop_line_positions)) as (Hsl & Hwp & Hpub).
  { repeat split; simpl; [constructor | now left | constructor]. }
  rewrite Forall_forall in Hsl.
  split.
  - eapply Forall_impl; [| exact Hpub]. simpl.
    intros m [? | Hin]; [now left | right; split; [now apply Hsl | exact Hin]].
  - destruct Hwp as [? | Hin]; [now left | right; split; [now apply Hsl | exact Hin]].
Qed.

End Messages.

Lemma stop_lines_after_frames_witness :
  stop_lines (@spin grid three_frames_one_pose two_stop_lines)
  = stop_lines two_stop_lines
    ++ copies (length (filter is_frame three_frames_one_pose)) [5; 8] /\
  length (stop_lines (@spin grid three_frames_one_pose two_stop_lines))
  = (length (stop_lines two_stop_lines)
     + length (filter is_frame three_frames_one_pose)
       * length (config two_stop_lines))%nat.
Proof.
  apply (@stop_lines_after_frames grid two_stop_lines [5; 8]).
  - reflexivity.
  - reflexivity.
Defined.

(** Three frames leave six stored stop lines for two configured ones. *)
Example stop_lines_after_three_frames :
  stop_lines (@spin grid three_frames_one_pose two_stop_lines)
  = [5; 8; 5; 8; 5; 8].
Proof. reflexivity. Qed.

(** ** Frames before any pose *)
Section WithoutPose.
Context {C : Collaborators}.

Lemma image_cb_without_pose_step (msg : Image) (self : TLDetector)
    (w : Position) (lane : list Position) :
  waypoints self = Some (w :: lane) ->
  pose self = None ->
  exists r,
    snd (image_cb msg self)
    = debounce (-1) (PyInt UNKNOWN)
        (set_stop_lines (stop_lines self ++ r) (set_image msg self)).
Proof.
  intros Hw Hp.
  destruct (closest_waypoints_some (set_image msg self) w lane Hw)
    as (r & Hr & _).
  exists r. rewrite image_cb_unfold.
  rewrite (process_traffic_lights_resolved (set_image msg self) r Hr).
  cbv zeta. simpl. now rewrite Hp.
Qed.

Lemma debounce_unknown_holds (s : TLDetector) :
  state s = PyInt UNKNOWN ->
  last_wp s = -1 ->
  let s' := debounce (-1) (PyInt UNKNOWN) s in
  state s' = PyInt UNKNOWN /\ last_wp s' = -1 /\
  upcoming_red_light_pub s' = upcoming_red_light_pub s ++ [-1].
Proof.
  intros Hst Hwp.
  assert (Heq : py_eq (state s) (PyInt UNKNOWN) = true)
    by (rewrite Hst; apply py_eq_refl).
  assert (Hc : committed (PyInt UNKNOWN) (-1) = -1)
    by (unfold committed; now destruct (_ || _)).
  destruct (Z_lt_le_dec (state_count s) STATE_COUNT_THRESHOLD) as [Hlt | Hge].
  - rewrite (debounce_held _ _ s Heq Hlt). simpl. now rewrite Hwp.
  - rewrite (debounce_commit _ _ s Heq Hge). simpl. now rewrite Hc.
Qed.

(** X9. A node that has a non-empty path but no pose, with the debounce
    as [__init__] leaves it (state UNKNOWN, stable waypoint -1), publishes
    -1 on every frame, from the first one on, and never calls the
    classifier. *)
Theorem frames_without_pose (self : TLDetector) (w : Position)
    (lane : list Position) (imgs : list Image) :
  waypoints self = Some (w :: lane) ->
  pose self = None ->
  state self = PyInt UNKNOWN ->
  last_wp self = -1 ->
  upcoming_red_light_pub (spin (map CameraImage imgs) self)
  = upcoming_red_light_pub self ++ repeat (-1) (length imgs) /\
  light_classifier (spin (map CameraImage imgs) self)
  = light_classifier self.
Proof.
  revert self. induction imgs as [| img imgs IH]; intros self Hw Hp Hst Hwp.
  - simpl. now rewrite app_nil_r.
  - simpl map. rewrite spin_cons. simpl deliver.
    destruct (image_cb_without_pose_step img self w lane Hw Hp) as (r & Hs).
    set (s0 := set_stop_lines (stop_lines self ++ r) (set_image img self)) in *.
    destruct (debounce_unknown_holds s0 Hst Hwp) as (Hst' & Hwp' & Hpub').
    destruct (debounce_frame (-1) (PyInt UNKNOWN) s0)
      as (Hp0 & Hw0 & _ & _ & _ & _ & Hl0).
    rewrite <- Hs in *.
    destruct (IH (snd (image_cb img self))) as (Hpub & Hcls);
      [now rewrite Hw0 | now rewrite Hp0 | assumption | assumption |].
    rewrite Hpub, Hcls, Hpub', Hl0. simpl.
    now rewrite <- app_assoc.
Qed.

End WithoutPose.

Lemma frames_without_pose_witness :
  upcoming_red_light_pub
    (@spin grid (map (@CameraImage grid) [0; 0; 2; 0; 1]) two_stop_lines)
  = upcoming_red_light_pub two_stop_lines ++ repeat (-1) (length [0; 0; 2; 0; 1])
  /\
  light_classifier
    (@spin grid (map (@CameraImage grid) [0; 0; 2; 0; 1]) two_stop_lines)
  = light_classifier two_stop_lines.
Proof.
  apply (@frames_without_pose grid two_stop_lines (at_x 0)
           (tl (straight_lane 10)) [0; 0; 2; 0; 1]);
    reflexivity.
Defined.

(** ** A new path keeps the old stop lines *)
Section NewPath.
Context {C : Collaborators}.

(** X10. waypoints_cb replaces the path and leaves [self.stop_lines] as
    it is, so the next frame scans the indices resolved on the old path
    before those of the new one: if one of the old entries lies in the
    window of the car's waypoint on the new path, and none before it does,
    it is the candidate, whatever the stop lines resolve to on the new
    path. *)
Theorem stale_stop_line_after_new_path (s0 : TLDetector)
    (lane' : list Position) (p : Position) (car : Z) (r pre post : list Z)
    (w : Z) (img : Image) :
  stop_lines s0 = pre ++ w :: post ->
  Forall (fun v => ~ 0 < v - car < 150) pre ->
  0 < w - car < 150 ->
  pose s0 = Some p ->
  has_image s0 = Some true ->
  camera_image s0 = Some img ->
  fst (get_closest_waypoint p (snd (waypoints_cb lane' s0))) = Ok car ->
  closest_waypoints (snd (waypoints_cb lane' s0)) = Ok r ->
  stop_lines (snd (waypoints_cb lane' s0)) = stop_lines s0 /\
  fst (process_traffic_lights (snd (waypoints_cb lane' s0)))
  = Ok (w, PyInt (get_classification img)).
Proof.
  intros Hsl Hpre Hw Hp Hh Hi Hcar Hr.
  split; [reflexivity |].
  rewrite (process_traffic_lights_candidate (snd (waypoints_cb lane' s0)) p car
             r pre (post ++ r) w img); auto.
  simpl. rewrite Hsl, <- app_assoc. reflexivity.
Qed.

End NewPath.

Lemma stale_stop_line_after_new_path_witness :
  stop_lines
    (snd (@waypoints_cb grid (shifted_lane 300)
            (snd (@image_cb grid 0 (car_at_60 [100])))))
  = stop_lines (snd (@image_cb grid 0 (car_at_60 [100]))) /\
  fst (@process_traffic_lights grid
         (snd (@waypoints_cb grid (shifted_lane 300)
                 (snd (@image_cb grid 0 (car_at_60 [100]))))))
  = Ok (100, PyInt 0).
Proof.
  apply (@stale_stop_line_after_new_path grid
           (snd (@image_cb grid 0 (car_at_60 [100]))) (shifted_lane 300)
           (at_x 60) 10 [50] [] [] 100 0);
    solve [vm_compute; reflexivity | constructor | lia].
Defined.

(** On the shifted path the stop line is at waypoint 50 and the car at 10;
    the frame still returns the waypoint 100 of the old path. *)
Example rerouted_returns_old_waypoint :
  closest_waypoints rerouted = Ok [50] /\
  fst (@get_closest_waypoint grid (at_x 60) rerouted) = Ok 10 /\
  stop_lines rerouted = [100] /\
  fst (@process_traffic_lights grid rerouted) = Ok (100, PyInt 0).
Proof. vm_compute. repeat split. Qed.

(** ** A single differing observation *)
Section Flicker.
Context {C : Collaborators}.

(** X11. One frame with raw state [stB], different from the stored state,
    followed by frames with raw state [stA]: the frame of [stB] and the
    first frame of [stA] both restart the count, the next two frames
    publish the stable waypoint, and over these four frames the stable
    waypoint and state do not change. The fifth frame commits for [stA]. *)
Theorem single_flicker (s : TLDetector) (stA stB : pyval)
    (w1 w2 w3 w4 w5 : Z) :
  py_eq (state s) stB = false ->
  py_eq stB stA = false ->
  last_wp (debounce_run [(w1, stB); (w2, stA); (w3, stA); (w4, stA)] s)
  = last_wp s /\
  last_state (debounce_run [(w1, stB); (w2, stA); (w3, stA); (w4, stA)] s)
  = last_state s /\
  upcoming_red_light_pub
    (debounce_run [(w1, stB); (w2, stA); (w3, stA); (w4, stA)] s)
  = upcoming_red_light_pub s ++ [last_wp s; last_wp s] /\
  last_wp
    (debounce_run [(w1, stB); (w2, stA); (w3, stA); (w4, stA); (w5, stA)] s)
  = committed stA w5 /\
  upcoming_red_light_pub
    (debounce_run [(w1, stB); (w2, stA); (w3, stA); (w4, stA); (w5, stA)] s)
  = upcoming_red_light_pub s ++ [last_wp s; last_wp s; committed stA w5].
Proof.
  intros HB HA. unfold debounce_run. simpl.
  rewrite (debounce_new w1 stB s HB).
  set (s1 := set_debounce stB _ _ _ _ s).
  rewrite (debounce_new w2 stA s1 HA).
  set (s2 := set_debounce stA _ _ _ _ s1).
  rewrite (debounce_held w3 stA s2)
    by (simpl; first [apply py_eq_refl | unfold STATE_COUNT_THRESHOLD; lia]).
  set (s3 := set_debounce _ _ _ _ _ s2).
  rewrite (debounce_held w4 stA s3)
    by (simpl; first [apply py_eq_refl | unfold STATE_COUNT_THRESHOLD; lia]).
  set (s4 := set_debounce _ _ _ _ _ s3).
  rewrite (debounce_commit w5 stA s4)
    by (simpl; first [apply py_eq_refl | unfold STATE_COUNT_THRESHOLD; lia]).
  simpl. rewrite <- !app_assoc. simpl. auto.
Qed.

End Flicker.

Lemma single_flicker_witness :
  last_wp
    (@debounce_run grid
       [(160, PyInt 0); (-1, PyInt 4); (-1, PyInt 4); (-1, PyInt 4)]
       (@init grid []))
  = last_wp (@init grid []) /\
  last_state
    (@debounce_run grid
       [(160, PyInt 0); (-1, PyInt 4); (-1, PyInt 4); (-1, PyInt 4)]
       (@init grid []))
  = last_state (@init grid []) /\
  upcoming_red_light_pub
    (@debounce_run grid
       [(160, PyInt 0); (-1, PyInt 4); (-1, PyInt 4); (-1, PyInt 4)]
       (@init grid []))
  = upcoming_red_light_pub (@init grid [])
    ++ [last_wp (@init grid []); last_wp (@init grid [])] /\
  last_wp
    (@debounce_run grid
       [(160, PyInt 0); (-1, PyInt 4); (-1, PyInt 4); (-1, PyInt 4);
        (-1, PyInt 4)]
       (@init grid []))
  = @committed grid (PyInt 4) (-1) /\
  upcoming_red_light_pub
    (@debounce_run grid
       [(160, PyInt 0); (-1, PyInt 4); (-1, PyInt 4); (-1, PyInt 4);
        (-1, PyInt 4)]
       (@init grid []))
  = upcoming_red_light_pub (@init grid [])
    ++ [last_wp (@init grid []); last_wp (@init grid []);
        @committed grid (PyInt 4) (-1)].
Proof.
  apply (@single_flicker grid (@init grid []) (PyInt 4) (PyInt 0)
           160 (-1) (-1) (-1) (-1)).
  - reflexivity.
  - reflexivity.
Defined.

(** ** Approaching one stop line: frames with one classification *)
Section Approach.
Context {C : Collaborators}.
Variables (p : Position) (car w : Z) (r pre post : list Z).
Hypothesis r_split : r = pre ++ w :: post.
Hypothesis pre_rejected : Forall (fun v => ~ 0 < v - car < 150) pre.
Hypothesis w_accepted : 0 < w - car < 150.

(** The car stands at waypoint [car], the stop lines resolve to [r], and
    [self.stop_lines] holds copies of [r]. *)
Local Abbreviation standing s :=
  (pose s = Some p /\ fst (get_closest_waypoint p s) = Ok car /\
   closest_waypoints s = Ok r /\ exists k, stop_lines s = copies k r).

Lemma image_cb_standing (img : Image) (s : TLDetector) :
  standing s ->
  standing (snd (image_cb img s)) /\
  exists s1,
    snd (image_cb img s) = debounce w (PyInt (get_classification img)) s1 /\
    state s1 = state s /\ last_state s1 = last_state s /\
    last_wp s1 = last_wp s /\ state_count s1 = state_count s /\
    upcoming_red_light_pub s1 = upcoming_red_light_pub s /\
    light_classifier s1 = light_classifier s ++ [img].
Proof.
  intros (Hp & Hcar & Hr & k & Hk).
  destruct (image_cb_keeps_inputs img s) as (Hp' & Hw' & Hc').
  split.
  - repeat split.
    + now rewrite Hp'.
    + now rewrite (get_closest_waypoint_ext p _ s).
    + rewrite <- Hr. now apply closest_waypoints_ext.
    + exists (S k).
      destruct (image_cb_stop_lines img s)
        as (ext & -> & _ & [Hext | (_ & e & He)]); [| congruence].
      assert (ext = r) by congruence. subst ext. now rewrite Hk.
  - set (s0 := set_image img s).
    assert (Hptl : process_traffic_lights s0
                   = (Ok (w, PyInt (get_classification img)),
                      set_light_classifier (light_classifier s0 ++ [img])
                        (set_stop_lines (stop_lines s0 ++ r) s0))).
    { apply (process_traffic_lights_candidate s0 p car r pre
               (post ++ copies k r) w img); auto.
      - rewrite <- Hr. now apply closest_waypoints_ext.
      - now rewrite (get_closest_waypoint_ext p s0 s).
      - change (stop_lines s0) with (stop_lines s). rewrite Hk.
        change (copies k r ++ r) with (copies (S k) r).
        rewrite copies_front, r_split at 1. now rewrite <- app_assoc. }
    rewrite image_cb_unfold. fold s0. rewrite Hptl.
    eexists. split; [reflexivity |]. simpl. repeat split.
Qed.

(** Frames at or above the threshold, all classified as the stored state. *)
Lemma committing_frames (c : Z) (imgs : list Image) (s : TLDetector) :
  standing s ->
  Forall (fun img => get_classification img = c) imgs ->
  py_eq (state s) (PyInt c) = true ->
  STATE_COUNT_THRESHOLD <= state_count s ->
  upcoming_red_light_pub (spin (map CameraImage imgs) s)
  = upcoming_red_light_pub s ++ repeat (committed (PyInt c) w) (length imgs) /\
  light_classifier (spin (map CameraImage imgs) s)
  = light_classifier s ++ imgs.
Proof.
  intros Hs Hall. revert s Hs.
  induction Hall as [| img imgs Himg _ IH]; intros s Hs Heq Hcnt.
  - simpl. now rewrite !app_nil_r.
  - simpl map. rewrite spin_cons. simpl deliver.
    destruct (image_cb_standing img s Hs)
      as (Hs' & s1 & Hs1 & Hst & _ & _ & Hc1 & Hpub & Hcls).
    rewrite Himg in Hs1.
    rewrite debounce_commit in Hs1 by (rewrite ?Hst, ?Hc1; assumption).
    destruct (IH (snd (image_cb img s)) Hs') as (Hpub' & Hcls').
    + rewrite Hs1. simpl. now rewrite Hst.
    + rewrite Hs1. simpl. unfold STATE_COUNT_THRESHOLD in *. lia.
    + rewrite Hpub', Hcls', Hs1. simpl.
      rewrite Hpub, Hcls, <- !app_assoc. split; reflexivity.
Qed.

(** X12. The car stands before a stop line at waypoint [w], the first of
    the configured stop lines in its window, and every frame is classified
    [c], a state different from the stored one. The first frame publishes
    nothing, the second and third the stable waypoint, and every frame
    from the fourth on the committed value: [w] if [c] is RED or YELLOW,
    -1 otherwise. The classifier is called once per frame. *)
Theorem approach_publishes (s : TLDetector) (c : Z)
    (i1 i2 i3 : Image) (imgs : list Image) :
  pose s = Some p ->
  fst (get_closest_waypoint p s) = Ok car ->
  closest_waypoints s = Ok r ->
  (exists k, stop_lines s = copies k r) ->
  Forall (fun img => get_classification img = c) (i1 :: i2 :: i3 :: imgs) ->
  py_eq (state s) (PyInt c) = false ->
  upcoming_red_light_pub (spin (map CameraImage (i1 :: i2 :: i3 :: imgs)) s)
  = upcoming_red_light_pub s ++ [last_wp s; last_wp s]
    ++ repeat (committed (PyInt c) w) (length imgs) /\
  light_classifier (spin (map CameraImage (i1 :: i2 :: i3 :: imgs)) s)
  = light_classifier s ++ i1 :: i2 :: i3 :: imgs.
Proof.
  intros Hp Hcar Hr Hk Hall Hnew.
  assert (Hs : standing s) by auto.
  pose proof (Forall_inv Hall) as H1.
  pose proof (Forall_inv_tail Hall) as Hall1.
  pose proof (Forall_inv Hall1) as H2.
  pose proof (Forall_inv_tail Hall1) as Hall2.
  pose proof (Forall_inv Hall2) as H3.
  pose proof (Forall_inv_tail Hall2) as Hall3.
  cbv beta in H1, H2, H3.
  simpl map. rewrite !spin_cons. simpl deliver.
  destruct (image_cb_standing i1 s Hs)
    as (Hs1 & a1 & E1 & St1 & _ & Wp1 & _ & Pub1 & Cls1).
  rewrite H1 in E1.
  rewrite debounce_new in E1 by (now rewrite St1).
  set (t1 := snd (image_cb i1 s)) in *.
  destruct (image_cb_standing i2 t1 Hs1)
    as (Hs2 & a2 & E2 & St2 & _ & Wp2 & Ct2 & Pub2 & Cls2).
  rewrite H2 in E2.
  rewrite debounce_held in E2
    by (rewrite ?St2, ?Ct2, E1; simpl;
        first [apply py_eq_refl | unfold STATE_COUNT_THRESHOLD; lia]).
  set (t2 := snd (image_cb i2 t1)) in *.
  destruct (image_cb_standing i3 t2 Hs2)
    as (Hs3 & a3 & E3 & St3 & _ & Wp3 & Ct3 & Pub3 & Cls3).
  rewrite H3 in E3.
  rewrite debounce_held in E3
    by (rewrite ?St3, ?Ct3, E2; simpl; rewrite ?St2, ?Ct2, E1; simpl;
        first [apply py_eq_refl | unfold STATE_COUNT_THRESHOLD; lia]).
  set (t3 := snd (image_cb i3 t2)) in *.
  destruct (committing_frames c imgs t3 Hs3 Hall3)
    as (Hpub & Hcls).
  - rewrite E3. simpl. rewrite St3, E2. simpl. rewrite St2, E1. simpl.
    apply py_eq_refl.
  - rewrite E3. simpl. rewrite Ct3, E2. simpl. rewrite Ct2, E1. simpl.
    unfold STATE_COUNT_THRESHOLD. lia.
  - rewrite Hpub, Hcls. rewrite E3. simpl.
    rewrite Pub3, Wp3, Cls3, E2. simpl.
    rewrite Pub2, Wp2, Cls2, E1. simpl.
    rewrite Pub1, Wp1, Cls1, <- !app_assoc. simpl. auto.
Qed.

End Approach.

Lemma approach_publishes_witness :
  upcoming_red_light_pub
    (@spin grid (map (@CameraImage grid) [0; 0; 0; 0; 0])
       (car_at_60 [160; 110]))
  = upcoming_red_light_pub (car_at_60 [160; 110])
    ++ [last_wp (car_at_60 [160; 110]); last_wp (car_at_60 [160; 110])]
    ++ repeat (@committed grid (PyInt 0) 160) (length [0; 0]) /\
  light_classifier
    (@spin grid (map (@CameraImage grid) [0; 0; 0; 0; 0])
       (car_at_60 [160; 110]))
  = light_classifier (car_at_60 [160; 110]) ++ [0; 0; 0; 0; 0].
Proof.
  apply (@approach_publishes grid (at_x 60) 60 160 [160; 110] [] [110]
           eq_refl (Forall_nil _) ltac:(lia) (car_at_60 [160; 110]) 0
           0 0 0 [0; 0]).
  - reflexivity.
  - vm_compute. reflexivity.
  - vm_compute. reflexivity.
  - exists 0%nat. reflexivity.
  - repeat constructor.
  - reflexivity.
Defined.

(** Five RED frames before the stop line at 160: silence, -1, -1, 160, 160. *)
Example approach_trace :
  upcoming_red_light_pub
    (@spin grid (map (@CameraImage grid) [0; 0; 0; 0; 0])
       (car_at_60 [160; 110]))
  = [-1; -1; 160; 160].
Proof. vm_compute. reflexivity. Qed.
